(** * pi_recorder: capture, encode and upload sessions of the Raspberry Pi recorder

    A shallow embedding of [scripts/pi_recorder.py].  Python code that touches
    the clock, the environment, the sound device, the local disk or the object
    store is written in a state-and-exception monad over an explicit program
    state; what the outside world answers (clock readings, device replies,
    upload outcomes) is read from a fixed record of oracles. *)

From Stdlib Require Import ZArith Lia Bool List String Ascii.
From Stdlib Require Import Floats.SpecFloat.
From stdpp Require Import base option list gmap strings pretty.

Local Open Scope string_scope.
Local Open Scope list_scope.
Local Open Scope Z_scope.

(** ** Python values used by the script *)

Definition bytes := list Byte.byte.

(** Exceptions.  [PyExc] covers the subclasses of [Exception] the script can
    meet; [SystemExit] and [KeyboardInterrupt] derive from [BaseException]
    only, so an [except Exception] clause lets them through. *)
Inductive ExnKind :=
  | TypeError | ValueError | KeyError | ZeroDivisionError | OverflowError
  | OSError | WaveError | S3UploadFailedError.

Inductive Exn :=
  | PyExc (k : ExnKind) (msg : string)
  | SystemExit (code : Z)
  | KeyboardInterrupt.

Definition is_Exception (e : Exn) : bool :=
  match e with PyExc _ _ => true | _ => false end.

Definition exn_str (e : Exn) : string :=
  match e with
  | PyExc _ msg => msg
  | SystemExit c => pretty c
  | KeyboardInterrupt => ""
  end.

Inductive Res (A : Type) :=
  | Ok (a : A)
  | Raise (e : Exn).
Arguments Ok {A} a.
Arguments Raise {A} e.

(** ** Strings

    A [string] is read as a sequence of code points below 256. *)

Definition code (c : ascii) : Z := Z.of_nat (nat_of_ascii c).

(** [str.isspace] on one character *)
Definition is_space (c : ascii) : bool :=
  let n := code c in
  ((9 <=? n) && (n <=? 13)) || ((28 <=? n) && (n <=? 32)) || (n =? 133) || (n =? 160).

Definition is_ascii_digit (c : ascii) : bool :=
  let n := code c in (48 <=? n) && (n <=? 57).

(** [str.isdigit] on one character: the ASCII digits and the superscripts
    two, three and one (code points 178, 179 and 185). *)
Definition is_digit_char (c : ascii) : bool :=
  let n := code c in
  is_ascii_digit c || (n =? 178) || (n =? 179) || (n =? 185).

Fixpoint lstrip (s : string) : string :=
  match s with
  | String c s' => if is_space c then lstrip s' else s
  | EmptyString => EmptyString
  end.

Fixpoint rstrip (s : string) : string :=
  match s with
  | String c s' =>
      match rstrip s' with
      | EmptyString => if is_space c then EmptyString else String c EmptyString
      | r => String c r
      end
  | EmptyString => EmptyString
  end.

(** [str.strip()] *)
Definition strip (s : string) : string := rstrip (lstrip s).

Fixpoint all_chars (p : ascii -> bool) (s : string) : bool :=
  match s with
  | String c s' => p c && all_chars p s'
  | EmptyString => true
  end.

(** [str.isdigit()]: at least one character, all of them digits *)
Definition isdigit (s : string) : bool :=
  match s with
  | EmptyString => false
  | _ => all_chars is_digit_char s
  end.

Definition digit_val (c : ascii) : Z := code c - 48.

(** Digits of a decimal literal after the sign: single underscores are allowed
    between digits.  [acc] is the value read so far, [prev_digit] tells whether
    the previous character was a digit. *)
Fixpoint parse_digits (s : string) (acc : Z) (prev_digit : bool) : option Z :=
  match s with
  | EmptyString => if prev_digit then Some acc else None
  | String c s' =>
      if is_ascii_digit c then parse_digits s' (10 * acc + digit_val c) true
      else if (code c =? 95) && prev_digit then parse_digits s' acc false
      else None
  end.

Definition parse_int (s : string) : option Z :=
  match s with
  | String "-" s' => Z.opp <$> parse_digits s' 0 false
  | String "+" s' => parse_digits s' 0 false
  | _ => parse_digits s 0 false
  end.

(** [int(s)] for a string [s], base ten *)
Definition int_of_str (s : string) : Res Z :=
  match parse_int (strip s) with
  | Some z => Ok z
  | None => Raise (PyExc ValueError ("invalid literal for int() with base 10: " +:+ s))
  end.

(** Fixed-width decimal rendering, as [%02d] and friends produce it for a
    value that fits the width. *)
Definition digit_char (d : Z) : ascii := ascii_of_nat (48 + Z.to_nat d).

Fixpoint zero_pad (width : nat) (n : Z) : string :=
  match width with
  | O => ""
  | S w => zero_pad w (n / 10) +:+ String (digit_char (n mod 10)) ""
  end.

(** ** Floating point

    [float] is IEEE 754 binary64, computed with the reference operations of
    [SpecFloat] at precision 53 and maximal exponent 1024. *)

Definition prec : Z := 53.
Definition emax : Z := 1024.

Definition exact_float (z : Z) : spec_float :=
  match z with
  | Z0 => S754_zero false
  | Zpos p => S754_finite false p 0
  | Zneg p => S754_finite true p 0
  end.

Definition is_inf (f : spec_float) : bool :=
  match f with S754_infinity _ => true | _ => false end.

(** [a / b] for two ints: the quotient of the exact integers, correctly
    rounded; division by zero and a quotient beyond the float range raise. *)
Definition int_truediv (a b : Z) : Res spec_float :=
  if b =? 0 then Raise (PyExc ZeroDivisionError "division by zero")
  else
    let q := SFdiv prec emax (exact_float a) (exact_float b) in
    if is_inf q then Raise (PyExc OverflowError "integer division result too large for a float")
    else Ok q.

(** [float(n)] for an int *)
Definition float_of_int (n : Z) : Res spec_float :=
  let f := binary_normalize prec emax n 0 false in
  if is_inf f then Raise (PyExc OverflowError "int too large to convert to float")
  else Ok f.

(** [x * n] for a float and an int *)
Definition float_mul_int (x : spec_float) (n : Z) : Res spec_float :=
  match float_of_int n with
  | Ok y => Ok (SFmul prec emax x y)
  | Raise e => Raise e
  end.

(** [int(x)] for a float: truncation towards zero *)
Definition int_of_float (x : spec_float) : Res Z :=
  match x with
  | S754_zero _ => Ok 0
  | S754_finite s m e =>
      let a := match e with
               | Zneg k => Z.shiftr (Zpos m) (Zpos k)
               | _ => Z.shiftl (Zpos m) e
               end in
      Ok (if s then - a else a)
  | S754_infinity _ => Raise (PyExc OverflowError "cannot convert float infinity to integer")
  | S754_nan => Raise (PyExc ValueError "cannot convert float NaN to integer")
  end.

(** Values found in a device-information dictionary *)
Inductive PyVal :=
  | PyInt (z : Z)
  | PyFloat (x : spec_float)
  | PyStr (s : string).

(** [int(v)] *)
Definition py_int (v : PyVal) : Res Z :=
  match v with
  | PyInt z => Ok z
  | PyFloat x => int_of_float x
  | PyStr s => int_of_str s
  end.

(** ** Dates and times *)

Record DateTime := mkDateTime {
  year : Z; month : Z; day : Z;
  hour : Z; minute : Z; second : Z; microsecond : Z
}.

Record DayTime := mkTime {
  t_hour : Z; t_minute : Z; t_second : Z; t_microsecond : Z
}.

(** [datetime.time()] *)
Definition dt_time_of (d : DateTime) : DayTime :=
  mkTime (hour d) (minute d) (second d) (microsecond d).

(** [datetime.time(hour, minute)]: the constructor checks its ranges *)
Definition dt_time (h m : Z) : Res DayTime :=
  if negb ((0 <=? h) && (h <=? 23)) then Raise (PyExc ValueError "hour must be in 0..23")
  else if negb ((0 <=? m) && (m <=? 59)) then Raise (PyExc ValueError "minute must be in 0..59")
  else Ok (mkTime h m 0 0).

(** Comparison of two naive [time] values: lexicographic on
    (hour, minute, second, microsecond). *)
Definition time_cmp (a b : DayTime) : comparison :=
  match t_hour a ?= t_hour b with
  | Eq => match t_minute a ?= t_minute b with
          | Eq => match t_second a ?= t_second b with
                  | Eq => t_microsecond a ?= t_microsecond b
                  | c => c
                  end
          | c => c
          end
  | c => c
  end.

Definition time_le (a b : DayTime) : bool :=
  match time_cmp a b with Gt => false | _ => true end.

(** [strftime("%Y%m%d_%H%M%S")] *)
Definition strftime_compact (d : DateTime) : string :=
  zero_pad 4 (year d) +:+ zero_pad 2 (month d) +:+ zero_pad 2 (day d) +:+ "_" +:+
  zero_pad 2 (hour d) +:+ zero_pad 2 (minute d) +:+ zero_pad 2 (second d).

(** [strftime("%Y-%m-%d")] *)
Definition strftime_date (d : DateTime) : string :=
  zero_pad 4 (year d) +:+ "-" +:+ zero_pad 2 (month d) +:+ "-" +:+ zero_pad 2 (day d).

(** [strftime("%Y-%m-%d %H:%M:%S")] *)
Definition strftime_stamp (d : DateTime) : string :=
  strftime_date d +:+ " " +:+
  zero_pad 2 (hour d) +:+ ":" +:+ zero_pad 2 (minute d) +:+ ":" +:+ zero_pad 2 (second d).

(** [datetime.isoformat()]: the fraction is printed unless it is zero *)
Definition isoformat (d : DateTime) : string :=
  strftime_date d +:+ "T" +:+
  zero_pad 2 (hour d) +:+ ":" +:+ zero_pad 2 (minute d) +:+ ":" +:+ zero_pad 2 (second d) +:+
  (if microsecond d =? 0 then "" else "." +:+ zero_pad 6 (microsecond d)).

(** [os.path.join(a, b)] on a POSIX system *)
Definition is_abs (p : string) : bool :=
  match p with String "/" _ => true | _ => false end.

Fixpoint ends_with_slash (p : string) : bool :=
  match p with
  | EmptyString => false
  | String c EmptyString => (code c =? 47)
  | String _ p' => ends_with_slash p'
  end.

Definition path_join (a b : string) : string :=
  if is_abs b then b
  else match a with
       | EmptyString => b
       | _ => if ends_with_slash a then a +:+ b else a +:+ "/" +:+ b
       end.

(** ** Files, devices and the object store *)

(** A linear-PCM container as the [wave] module writes it: the three header
    fields, the frame count it derives from the data, and the sample data. *)
Record Wav := mkWav {
  wav_nchannels : Z;
  wav_sampwidth : Z;
  wav_framerate : Z;
  wav_nframes : Z;
  wav_data : bytes
}.

Inductive File :=
  | Plain (content : bytes)
  | WavFile (w : Wav).

(** Sample formats of PortAudio *)
Inductive SampleFormat := paFloat32 | paInt32 | paInt24 | paInt16 | paInt8 | paUInt8.

(** [PyAudio.get_sample_size] *)
Definition get_sample_size (f : SampleFormat) : Z :=
  match f with
  | paFloat32 => 4 | paInt32 => 4 | paInt24 => 3
  | paInt16 => 2 | paInt8 => 1 | paUInt8 => 1
  end.

(** A device-information dictionary, as far as the script reads it: the two
    keys it looks up and the text the dictionary prints as. *)
Record DevInfo := mkDevInfo {
  di_index : option PyVal;
  di_defaultSampleRate : option PyVal;
  di_repr : string
}.

(** Arguments of one [PyAudio.open] call *)
Record OpenCall := mkOpenCall {
  oc_format : SampleFormat;
  oc_channels : Z;
  oc_rate : Z;
  oc_input : bool;
  oc_frames_per_buffer : Z;
  oc_input_device_index : option Z
}.

(** Arguments of one [client.upload_file] call *)
Record UploadCall := mkUploadCall {
  uc_filename : string;
  uc_bucket : string;
  uc_key : string
}.

(** What the outside world answers.  An [inl] or [Some] message is the text of
    the error the call raises. *)
Record World := mkWorld {
  clock : nat -> DateTime;             (* successive readings of datetime.now() *)
  dotenv : gmap string string;         (* contents of the .env file *)
  script_dir : string;                 (* DIR_SCRIPT *)
  default_input : string + DevInfo;    (* get_default_input_device_info() *)
  device_info : Z -> string + DevInfo; (* get_device_info_by_index(i) *)
  open_outcome : nat -> option string; (* the n-th PyAudio.open *)
  read_outcome : nat -> string + bytes;(* the n-th stream.read *)
  upload_outcome : nat -> option string(* the n-th upload_file *)
}.

(** What the program changes. *)
Record State := mkState {
  environ : gmap string string;        (* os.environ *)
  ticks : nat;                         (* clock readings taken so far *)
  log : list (string * string);        (* (log file, line) in order of writing *)
  console : list string;               (* lines printed *)
  files : gmap string File;            (* the local disk, directories apart *)
  pa_next : nat;                       (* PyAudio instances created so far *)
  pa_live : gset nat;                  (* instances not yet terminated *)
  stream_next : nat;                   (* streams opened so far *)
  streams : gmap nat nat;              (* open streams, each with its instance *)
  open_calls : list OpenCall;
  reads : nat;                         (* stream.read calls so far *)
  upload_calls : list UploadCall;
  bucket : gmap (string * string) File;(* objects stored, by (bucket, key) *)
  sleeps : list Z                      (* time.sleep arguments, in order *)
}.

Definition set_environ (v : gmap string string) (s : State) : State :=
  mkState v (ticks s) (log s) (console s) (files s) (pa_next s) (pa_live s)
    (stream_next s) (streams s) (open_calls s) (reads s) (upload_calls s) (bucket s) (sleeps s).

Definition set_ticks (v : nat) (s : State) : State :=
  mkState (environ s) v (log s) (console s) (files s) (pa_next s) (pa_live s)
    (stream_next s) (streams s) (open_calls s) (reads s) (upload_calls s) (bucket s) (sleeps s).

Definition set_log (v : list (string * string)) (s : State) : State :=
  mkState (environ s) (ticks s) v (console s) (files s) (pa_next s) (pa_live s)
    (stream_next s) (streams s) (open_calls s) (reads s) (upload_calls s) (bucket s) (sleeps s).

Definition set_console (v : list string) (s : State) : State :=
  mkState (environ s) (ticks s) (log s) v (files s) (pa_next s) (pa_live s)
    (stream_next s) (streams s) (open_calls s) (reads s) (upload_calls s) (bucket s) (sleeps s).

Definition set_files (v : gmap string File) (s : State) : State :=
  mkState (environ s) (ticks s) (log s) (console s) v (pa_next s) (pa_live s)
    (stream_next s) (streams s) (open_calls s) (reads s) (upload_calls s) (bucket s) (sleeps s).

Definition set_pa (n : nat) (v : gset nat) (s : State) : State :=
  mkState (environ s) (ticks s) (log s) (console s) (files s) n v
    (stream_next s) (streams s) (open_calls s) (reads s) (upload_calls s) (bucket s) (sleeps s).

Definition set_streams (n : nat) (v : gmap nat nat) (s : State) : State :=
  mkState (environ s) (ticks s) (log s) (console s) (files s) (pa_next s) (pa_live s)
    n v (open_calls s) (reads s) (upload_calls s) (bucket s) (sleeps s).

Definition set_open_calls (v : list OpenCall) (s : State) : State :=
  mkState (environ s) (ticks s) (log s) (console s) (files s) (pa_next s) (pa_live s)
    (stream_next s) (streams s) v (reads s) (upload_calls s) (bucket s) (sleeps s).

Definition set_reads (v : nat) (s : State) : State :=
  mkState (environ s) (ticks s) (log s) (console s) (files s) (pa_next s) (pa_live s)
    (stream_next s) (streams s) (open_calls s) v (upload_calls s) (bucket s) (sleeps s).

Definition set_upload_calls (v : list UploadCall) (s : State) : State :=
  mkState (environ s) (ticks s) (log s) (console s) (files s) (pa_next s) (pa_live s)
    (stream_next s) (streams s) (open_calls s) (reads s) v (bucket s) (sleeps s).

Definition set_bucket (v : gmap (string * string) File) (s : State) : State :=
  mkState (environ s) (ticks s) (log s) (console s) (files s) (pa_next s) (pa_live s)
    (stream_next s) (streams s) (open_calls s) (reads s) (upload_calls s) v (sleeps s).

Definition set_sleeps (v : list Z) (s : State) : State :=
  mkState (environ s) (ticks s) (log s) (console s) (files s) (pa_next s) (pa_live s)
    (stream_next s) (streams s) (open_calls s) (reads s) (upload_calls s) (bucket s) v.

(** ** The monad: state and exceptions *)

Definition M (A : Type) : Type := State -> Res A * State.

Definition ret {A} (a : A) : M A := fun s => (Ok a, s).

Definition bind {A B} (m : M A) (k : A -> M B) : M B :=
  fun s => match m s with
           | (Ok a, s') => k a s'
           | (Raise e, s') => (Raise e, s')
           end.

Definition raise {A} (e : Exn) : M A := fun s => (Raise e, s).

Definition lift {A} (r : Res A) : M A := fun s => (r, s).

(** [try: body / except Exception as e: handler e] *)
Definition try_except {A} (body : M A) (handler : Exn -> M A) : M A :=
  fun s => match body s with
           | (Raise e, s') => if is_Exception e then handler e s' else (Raise e, s')
           | r => r
           end.

Notation "'let*' x ':=' m 'in' k" := (bind m (fun x => k))
  (at level 10, x pattern, m at level 100, k at level 200).

Definition rbind {A B} (r : Res A) (k : A -> Res B) : Res B :=
  match r with
  | Ok a => k a
  | Raise e => Raise e
  end.

(** ** Configuration of the script *)

Definition RECORDING_HOURS : Z * Z := (0, 23).
Definition RECORDING_DURATION : Z := 60.

Definition DEFAULT_SAMPLE_RATE : Z := 44100.
Definition DEFAULT_CHANNELS : Z := 1.
Definition DEFAULT_CHUNK_SIZE : Z := 2048.
Definition FORMAT : SampleFormat := paInt16.

Inductive ConfigKey :=
  | AWS_ACCESS_KEY_ID | AWS_SECRET_ACCESS_KEY | S3_BUCKET_NAME | S3_OBJECT_KEY_PREFIX.

Definition key_name (k : ConfigKey) : string :=
  match k with
  | AWS_ACCESS_KEY_ID => "AWS_ACCESS_KEY_ID"
  | AWS_SECRET_ACCESS_KEY => "AWS_SECRET_ACCESS_KEY"
  | S3_BUCKET_NAME => "S3_BUCKET_NAME"
  | S3_OBJECT_KEY_PREFIX => "S3_OBJECT_KEY_PREFIX"
  end.

(** The [Config] dictionary: its four keys are fixed by the type. *)
Record Config := mkConfig {
  cfg_access_key_id : string;
  cfg_secret_access_key : string;
  cfg_bucket_name : string;
  cfg_key_prefix : string
}.

Definition config_keys : list ConfigKey :=
  [AWS_ACCESS_KEY_ID; AWS_SECRET_ACCESS_KEY; S3_BUCKET_NAME; S3_OBJECT_KEY_PREFIX].

Definition config_get (c : Config) (k : ConfigKey) : string :=
  match k with
  | AWS_ACCESS_KEY_ID => cfg_access_key_id c
  | AWS_SECRET_ACCESS_KEY => cfg_secret_access_key c
  | S3_BUCKET_NAME => cfg_bucket_name c
  | S3_OBJECT_KEY_PREFIX => cfg_key_prefix c
  end.

Definition config_set (k : ConfigKey) (v : string) (c : Config) : Config :=
  match k with
  | AWS_ACCESS_KEY_ID =>
      mkConfig v (cfg_secret_access_key c) (cfg_bucket_name c) (cfg_key_prefix c)
  | AWS_SECRET_ACCESS_KEY =>
      mkConfig (cfg_access_key_id c) v (cfg_bucket_name c) (cfg_key_prefix c)
  | S3_BUCKET_NAME =>
      mkConfig (cfg_access_key_id c) (cfg_secret_access_key c) v (cfg_key_prefix c)
  | S3_OBJECT_KEY_PREFIX =>
      mkConfig (cfg_access_key_id c) (cfg_secret_access_key c) (cfg_bucket_name c) v
  end.

Record S3Client := mkS3Client {
  aws_access_key_id : string;
  aws_secret_access_key : string
}.

(** [a + b] where [b] may be [None]: only two strings concatenate *)
Definition str_add (a : string) (b : option string) : Res string :=
  match b with
  | Some v => Ok (a +:+ v)
  | None => Raise (PyExc TypeError "can only concatenate str (not NoneType) to str")
  end.

Definition nl : string := String (ascii_of_nat 10) "".

(** ** The [wave] writer

    A writer starts with its three parameters at zero, which stands for
    "not set"; closing it writes the header, and fails if one is missing. *)

Record WaveWrite := mkWaveWrite {
  ww_nchannels : Z;
  ww_sampwidth : Z;
  ww_framerate : Z;
  ww_frames : bytes
}.

Definition ww_new : WaveWrite := mkWaveWrite 0 0 0 [].

Definition setnchannels (n : Z) (wf : WaveWrite) : Res WaveWrite :=
  if n <? 1 then Raise (PyExc WaveError "bad # of channels")
  else Ok (mkWaveWrite n (ww_sampwidth wf) (ww_framerate wf) (ww_frames wf)).

Definition setsampwidth (w : Z) (wf : WaveWrite) : Res WaveWrite :=
  if (w <? 1) || (4 <? w) then Raise (PyExc WaveError "bad sample width")
  else Ok (mkWaveWrite (ww_nchannels wf) w (ww_framerate wf) (ww_frames wf)).

Definition setframerate (r : Z) (wf : WaveWrite) : Res WaveWrite :=
  if r <=? 0 then Raise (PyExc WaveError "bad frame rate")
  else Ok (mkWaveWrite (ww_nchannels wf) (ww_sampwidth wf) r (ww_frames wf)).

Definition ensure_header (wf : WaveWrite) : Res unit :=
  if ww_nchannels wf =? 0 then Raise (PyExc WaveError "# channels not specified")
  else if ww_sampwidth wf =? 0 then Raise (PyExc WaveError "sample width not specified")
  else if ww_framerate wf =? 0 then Raise (PyExc WaveError "sampling rate not specified")
  else Ok tt.

Definition writeframes (data : bytes) (wf : WaveWrite) : Res WaveWrite :=
  rbind (ensure_header wf) (fun _ =>
    Ok (mkWaveWrite (ww_nchannels wf) (ww_sampwidth wf) (ww_framerate wf)
          (ww_frames wf ++ data))).

(** The body of a [with wave.open(...) as wf] block, one call per step: the
    writer as the last successful step left it, and the error that stopped
    the block, if any. *)
Fixpoint run_steps (steps : list (WaveWrite -> Res WaveWrite)) (wf : WaveWrite)
  : WaveWrite * option Exn :=
  match steps with
  | [] => (wf, None)
  | step :: rest =>
      match step wf with
      | Ok wf' => run_steps rest wf'
      | Raise e => (wf, Some e)
      end
  end.

Definition wav_of (wf : WaveWrite) : Wav :=
  mkWav (ww_nchannels wf) (ww_sampwidth wf) (ww_framerate wf)
    (Z.of_nat (length (ww_frames wf)) / (ww_sampwidth wf * ww_nchannels wf))
    (ww_frames wf).

(** ** The script *)

Section Program.

Variable W : World.

(** *** Primitives: clock, environment, console, disk *)

(** [datetime.now()] *)
Definition datetime_now : M DateTime :=
  fun s => (Ok (clock W (ticks s)), set_ticks (S (ticks s)) s).

Definition DIR_LOGGING : string :=
  path_join (path_join (script_dir W) "..") "logs".

Definition DIR_TEMP_RECORDINGS : string :=
  path_join (path_join (script_dir W) "..") "temp_recordings".

(** [os.makedirs(d, exist_ok=True)]: directories are not tracked *)
Definition os_makedirs (d : string) : M unit := ret tt.

Definition print (line : string) : M unit :=
  fun s => (Ok tt, set_console (console s ++ [line]) s).

(** [with open(file, "a") as f: f.write(line)] on a log file *)
Definition append_line (file line : string) : M unit :=
  fun s => (Ok tt, set_log (log s ++ [(file, line)]) s).

Definition load_dotenv : M unit :=
  fun s => (Ok tt, set_environ (environ s ∪ dotenv W) s).

(** [os.environ.get(name, None)] *)
Definition os_environ_get (name : string) : M (option string) :=
  fun s => (Ok (environ s !! name), s).

(** [os.getenv(name, dflt)] *)
Definition os_getenv (name dflt : string) : M string :=
  fun s => (Ok (default dflt (environ s !! name)), s).

Definition sys_exit {A} (status : Z) : M A := raise (SystemExit status).

Definition time_sleep (seconds : Z) : M unit :=
  fun s => (Ok tt, set_sleeps (sleeps s ++ [seconds]) s).

(** [open(path, "wb")]: the file is created, or emptied *)
Definition file_create (path : string) : M unit :=
  fun s => (Ok tt, set_files (<[path := Plain []]> (files s)) s).

Definition file_store (path : string) (f : File) : M unit :=
  fun s => (Ok tt, set_files (<[path := f]> (files s)) s).

(** [os.remove(path)] *)
Definition os_remove (path : string) : M unit :=
  fun s => match files s !! path with
           | Some _ => (Ok tt, set_files (delete path (files s)) s)
           | None => (Raise (PyExc OSError ("No such file or directory: " +:+ path)), s)
           end.

(** [with wave.open(path, "wb") as wf: steps].  Leaving the block closes the
    writer, which writes the header and so raises when a parameter is still
    missing; that error replaces the one that stopped the block. *)
Definition with_wave_open (path : string) (steps : list (WaveWrite -> Res WaveWrite))
  : M unit :=
  let* _ := file_create path in
  let '(wf, stopped) := run_steps steps ww_new in
  match ensure_header wf with
  | Raise e => raise e
  | Ok _ =>
      let* _ := file_store path (WavFile (wav_of wf)) in
      match stopped with
      | Some e => raise e
      | None => ret tt
      end
  end.

(** *** Primitives: PyAudio *)

(** [pyaudio.PyAudio()] *)
Definition PyAudio : M nat :=
  fun s => let p := pa_next s in (Ok p, set_pa (S p) ({[p]} ∪ pa_live s) s).

Definition get_default_input_device_info (p : nat) : M DevInfo :=
  match default_input W with
  | inl msg => raise (PyExc OSError msg)
  | inr info => ret info
  end.

Definition get_device_info_by_index (p : nat) (i : Z) : M DevInfo :=
  match device_info W i with
  | inl msg => raise (PyExc OSError msg)
  | inr info => ret info
  end.

(** [d[key]] *)
Definition getitem (field : option PyVal) (key : string) : Res PyVal :=
  match field with
  | Some v => Ok v
  | None => Raise (PyExc KeyError key)
  end.

(** [p.open(...)] *)
Definition pa_open (p : nat) (c : OpenCall) : M nat :=
  fun s =>
    let s1 := set_open_calls (open_calls s ++ [c]) s in
    match open_outcome W (length (open_calls s)) with
    | Some msg => (Raise (PyExc OSError msg), s1)
    | None =>
        let st := stream_next s1 in
        (Ok st, set_streams (S st) (<[st := p]> (streams s1)) s1)
    end.

(** [stream.read(n, exception_on_overflow=False)] *)
Definition stream_read (st : nat) (num_frames : Z) : M bytes :=
  fun s =>
    let s1 := set_reads (S (reads s)) s in
    match read_outcome W (reads s) with
    | inl msg => (Raise (PyExc OSError msg), s1)
    | inr data => (Ok data, s1)
    end.

Definition stop_stream (st : nat) : M unit := ret tt.

Definition stream_close (st : nat) : M unit :=
  fun s => (Ok tt, set_streams (stream_next s) (delete st (streams s)) s).

(** [p.terminate()] also closes the streams the instance still has open. *)
Definition terminate (p : nat) : M unit :=
  fun s =>
    let s1 := set_streams (stream_next s) (filter (fun kv => kv.2 ≠ p) (streams s)) s in
    (Ok tt, set_pa (pa_next s1) (pa_live s1 ∖ {[p]}) s1).

(** *** Primitives: the object store *)

Definition boto3_client (key_id secret : string) : S3Client := mkS3Client key_id secret.

(** [client.upload_file(Filename=, Bucket=, Key=)] *)
Definition upload_file (client : S3Client) (filename bkt key : string) : M unit :=
  fun s =>
    let s1 := set_upload_calls (upload_calls s ++ [mkUploadCall filename bkt key]) s in
    match files s !! filename with
    | None => (Raise (PyExc OSError ("No such file or directory: " +:+ filename)), s1)
    | Some f =>
        match upload_outcome W (length (upload_calls s)) with
        | Some msg => (Raise (PyExc S3UploadFailedError msg), s1)
        | None => (Ok tt, set_bucket (<[(bkt, key) := f]> (bucket s1)) s1)
        end
    end.

(** *** [log_message] *)

Definition log_message (message : string) : M unit :=
  let log_dir := DIR_LOGGING in
  let* _ := os_makedirs log_dir in
  let* today := datetime_now in
  let today_date := strftime_date today in
  let log_file := path_join log_dir ("pi_recorder_" +:+ today_date +:+ ".log") in
  let* t := datetime_now in
  let timestamp := strftime_stamp t in
  let* _ := append_line log_file ("[" +:+ timestamp +:+ "] " +:+ message +:+ nl) in
  print ("[" +:+ timestamp +:+ "] " +:+ message).

(** *** [get_config] *)

Fixpoint get_config_loop (keys : list ConfigKey) (config : Config) : M Config :=
  match keys with
  | [] => ret config
  | env_var :: rest =>
      let* value := os_environ_get (key_name env_var) in
      let* line := lift (str_add ("Value: " +:+ key_name env_var) value) in
      let* _ := print line in
      match value with
      | None =>
          let* _ := log_message ("Environment variable '" +:+ key_name env_var +:+
                                 "' not set! Exiting...") in
          sys_exit 1
      | Some v => get_config_loop rest (config_set env_var v config)
      end
  end.

Definition get_config : M Config :=
  let* _ := load_dotenv in
  let* config := get_config_loop config_keys (mkConfig "" "" "" "") in
  let* _ := log_message ("Configuration loaded. S3 Bucket: " +:+ cfg_bucket_name config) in
  ret config.

(** *** [is_recording_time]

    The window is the module constant [RECORDING_HOURS], taken as an argument. *)

Definition is_recording_time (recording_hours : Z * Z) : M bool :=
  let* dt := datetime_now in
  let now := dt_time_of dt in
  let start_hour := Z.min (Z.max (fst recording_hours) 0) 23 in
  let end_hour := Z.min (Z.max (snd recording_hours) 0) 23 in
  let* start_time := lift (dt_time start_hour 0) in
  let* end_time := lift (dt_time end_hour 0) in
  ret (time_le start_time now && time_le now end_time).

(** *** Audio settings *)

Definition _int_from_env (name : string) (dflt : Z) : M Z :=
  try_except
    (let* value := os_getenv name "" in
     match value with
     | EmptyString => ret dflt
     | _ => lift (int_of_str value)
     end)
    (fun _ => ret dflt).

Definition resolve_input_device_index (p : nat) : M (option Z) :=
  try_except
    (let* info := get_default_input_device_info p in
     let* v := lift (getitem (di_index info) "index") in
     let* i := lift (py_int v) in
     ret (Some i))
    (fun _ => ret None).

Definition get_audio_settings (p : nat) : M (Z * Z * Z * option Z) :=
  let* device_index := resolve_input_device_index p in
  let* raw := os_getenv "AUDIO_SAMPLE_RATE" "" in
  let sr_env := strip raw in
  let* sample_rate :=
    if isdigit sr_env then lift (int_of_str sr_env)
    else
      match device_index with
      | Some i =>
          try_except
            (let* dev_info := get_device_info_by_index p i in
             let* _ := log_message ("Dev info " +:+ di_repr dev_info) in
             let* sr := lift (py_int (default (PyInt DEFAULT_SAMPLE_RATE)
                                        (di_defaultSampleRate dev_info))) in
             let* _ := log_message ("Using MIC sample rate: " +:+ pretty sr) in
             ret sr)
            (fun _ =>
               let* _ := log_message "Exception: Using default sample rate" in
               ret DEFAULT_SAMPLE_RATE)
      | None =>
          let* _ := log_message "Using default sample rate" in
          ret DEFAULT_SAMPLE_RATE
      end in
  let* channels := _int_from_env "AUDIO_CHANNELS" DEFAULT_CHANNELS in
  let* chunk_size := _int_from_env "AUDIO_CHUNK_SIZE" DEFAULT_CHUNK_SIZE in
  ret (sample_rate, channels, chunk_size, device_index).

(** *** [record_audio] *)

(** [int(sample_rate / chunk_size * duration)] *)
Definition total_chunks_of (sample_rate chunk_size duration : Z) : Res Z :=
  rbind (int_truediv sample_rate chunk_size) (fun q =>
  rbind (float_mul_int q duration) (fun x =>
  int_of_float x)).

(** The capture loop, [n] iterations left: a read that raises is logged and
    skipped. *)
Fixpoint read_loop (n : nat) (stream : nat) (chunk_size : Z) (frames : list bytes)
  : M (list bytes) :=
  match n with
  | O => ret frames
  | S n' =>
      let* frames' :=
        try_except
          (let* data := stream_read stream chunk_size in
           ret (frames ++ [data]))
          (fun e =>
             let* _ := log_message ("[WARN] stream.read issue (continuing): " +:+ exn_str e) in
             ret frames) in
      read_loop n' stream chunk_size frames'
  end.

Definition record_audio (duration : Z) (output_filename : string)
    (sample_rate channels chunk_size : Z) (device_index : option Z) (p : nat) : M bool :=
  try_except
    (let* _ := os_makedirs DIR_TEMP_RECORDINGS in
     let* stream := pa_open p (mkOpenCall FORMAT channels sample_rate true chunk_size
                                 device_index) in
     let* _ := log_message ("Starting recording for " +:+ pretty duration +:+ " seconds") in
     let* total_chunks := lift (total_chunks_of sample_rate chunk_size duration) in
     let* frames := read_loop (Z.to_nat total_chunks) stream chunk_size [] in
     let* _ := stop_stream stream in
     let* _ := stream_close stream in
     let* _ := terminate p in
     let output_path := path_join DIR_TEMP_RECORDINGS output_filename in
     let* _ := with_wave_open output_path
                 [ setnchannels channels;
                   setsampwidth (get_sample_size FORMAT);
                   setframerate sample_rate;
                   writeframes (concat frames) ] in
     let* _ := log_message ("Recording completed: " +:+ output_filename) in
     ret true)
    (fun e =>
       let* _ := log_message ("[ERROR] Recording failed: " +:+ exn_str e) in
       ret false).

(** *** [upload_to_s3] *)

Definition upload_to_s3 (client : S3Client) (config : Config) (file_path file_name : string)
  : M unit :=
  try_except
    (let* now := datetime_now in
     let created_at := isoformat now in
     let s3_key := cfg_key_prefix config +:+ created_at +:+ "/" +:+ file_name in
     let* _ := log_message ("Uploading " +:+ file_name +:+ " to S3...") in
     let* _ := upload_file client file_path (cfg_bucket_name config) s3_key in
     let* _ := log_message ("File " +:+ file_name +:+ " uploaded successfully!") in
     let* _ := os_remove file_path in
     log_message ("Local file " +:+ file_name +:+ " removed"))
    (fun e =>
       log_message ("[ERROR] Upload failed for " +:+ file_name +:+ ": " +:+ exn_str e)).

(** *** [record_and_upload_session] *)

Definition show_index (i : option Z) : string :=
  match i with
  | Some z => pretty z
  | None => "None"
  end.

Definition record_and_upload_session (config : Config) (client : S3Client) : M unit :=
  let* now := datetime_now in
  let timestamp := strftime_compact now in
  let filename := "recording_" +:+ timestamp +:+ ".wav" in
  let* p := PyAudio in
  let* settings := get_audio_settings p in
  let '(sample_rate, channels, chunk_size, device_index) := settings in
  let* _ := log_message ("Microphone config: rate=" +:+ pretty sample_rate +:+
                         "Hz, channels=" +:+ pretty channels +:+
                         ", chunk=" +:+ pretty chunk_size +:+
                         ", device=" +:+ show_index device_index) in
  let* ok := record_audio RECORDING_DURATION filename sample_rate channels chunk_size
               device_index p in
  if ok : bool then
    let file_path := path_join DIR_TEMP_RECORDINGS filename in
    upload_to_s3 client config file_path filename
  else
    log_message "Recording session failed, skipping upload".

(** *** [main] *)

(** One turn of the [while True] loop with its two handlers; [false] stands
    for [break]. *)
Definition main_iteration (recording_hours : Z * Z) (config : Config) (client : S3Client)
  : M bool :=
  fun s =>
    let body :=
      let* inside := is_recording_time recording_hours in
      if inside : bool then
        let* _ := log_message "Starting recording session..." in
        record_and_upload_session config client
      else
        let* _ := log_message "Outside recording hours, sleeping..." in
        time_sleep 300 in
    match body s with
    | (Ok _, s') => (Ok true, s')
    | (Raise KeyboardInterrupt, s') =>
        (let* _ := log_message "Recording stopped by user" in ret false) s'
    | (Raise e, s') =>
        if is_Exception e then
          (let* _ := log_message ("[ERROR] Unexpected error: " +:+ exn_str e) in
           let* _ := time_sleep 60 in
           ret true) s'
        else (Raise e, s')
    end.

(** How a run of the loop ended: by [break], or still looping when the
    turns counted by [fuel] were used up. *)
Inductive LoopEnd := Stopped | StillLooping.

Fixpoint main_loop (fuel : nat) (recording_hours : Z * Z) (config : Config)
    (client : S3Client) : M LoopEnd :=
  match fuel with
  | O => ret StillLooping
  | S fuel' =>
      let* continue := main_iteration recording_hours config client in
      if continue : bool then main_loop fuel' recording_hours config client
      else ret Stopped
  end.

Definition main (fuel : nat) (recording_hours : Z * Z) : M LoopEnd :=
  let* _ := log_message "Pi Audio Recorder started!" in
  let* config := get_config in
  let client := boto3_client (cfg_access_key_id config) (cfg_secret_access_key config) in
  let* _ := log_message ("Recording hours: " +:+ pretty (fst recording_hours) +:+
                         ":00 - " +:+ pretty (snd recording_hours) +:+ ":00") in
  let* _ := log_message ("Recording duration per session: " +:+
                         pretty RECORDING_DURATION +:+ " seconds") in
  main_loop fuel recording_hours config client.

End Program.

(** The status the interpreter exits with: zero after a normal return, the
    argument of [sys.exit], one after any other uncaught exception. *)
Definition exit_status {A} (r : Res A) : Z :=
  match r with
  | Ok _ => 0
  | Raise (SystemExit c) => c
  | Raise KeyboardInterrupt => 130
  | Raise (PyExc _ _) => 1
  end.

(** ** Definitions used to state the properties *)

(** A world that differs from [W] in its clock only. *)
Definition with_clock (c : nat -> DateTime) (W : World) : World :=
  mkWorld c (dotenv W) (script_dir W) (default_input W) (device_info W)
    (open_outcome W) (read_outcome W) (upload_outcome W).

Definition clamp_hour (h : Z) : Z := Z.min (Z.max h 0) 23.

(** The window test in the words of the specification: the hour of the
    current time lies between the two clamped hours, ends included. *)
Definition spec_hour_in_window (recording_hours : Z * Z) (now : DateTime) : bool :=
  (clamp_hour (fst recording_hours) <=? hour now) &&
  (hour now <=? clamp_hour (snd recording_hours)).



(** The reads [start], ..., [start + n - 1]: the data of those that succeed,
    in order, and the number of those that fail. *)
Definition read_ok (W : World) (i : nat) : option bytes :=
  match read_outcome W i with
  | inr data => Some data
  | inl _ => None
  end.

Definition captured (W : World) (start n : nat) : list bytes :=
  omap (read_ok W) (seq start n).

Definition failed (W : World) (start n : nat) : nat :=
  length (filter (fun i => read_ok W i = None) (seq start n)).

(** A decimal numeral: at least one character, all ASCII digits; and its value. *)
Definition numeral (v : string) : bool :=
  match v with
  | EmptyString => false
  | _ => all_chars is_ascii_digit v
  end.



(** The index of the default input device, when the device can be identified. *)
Definition identified_device (W : World) : option Z :=
  match default_input W with
  | inr info =>
      match di_index info with
      | Some v => match py_int v with Ok i => Some i | Raise _ => None end
      | None => None
      end
  | inl _ => None
  end.

(** The default rate the identified device reports, when it reports one. *)
Definition device_default_rate (W : World) : option Z :=
  match identified_device W with
  | Some i =>
      match device_info W i with
      | inr info =>
          match py_int (default (PyInt DEFAULT_SAMPLE_RATE) (di_defaultSampleRate info)) with
          | Ok z => Some z
          | Raise _ => None
          end
      | inl _ => None
      end
  | None => None
  end.


(** What the code leaves untouched while it resolves settings and records:
    nothing is uploaded, nothing sleeps, the environment stays, and the clock
    only moves forward. *)
Definition quiet (s s' : State) : Prop :=
  upload_calls s' = upload_calls s /\
  bucket s' = bucket s /\
  sleeps s' = sleeps s /\
  environ s' = environ s /\
  (ticks s <= ticks s')%nat.

Definition keeps {A} (m : M A) : Prop := forall s, quiet s (snd (m s)).

(** ** Example worlds *)

Definition at_time (h m sec us : Z) : DateTime := mkDateTime 2024 5 1 h m sec us.

(** No sound device answers, every read returns one byte, uploads succeed;
    the clock shows 09:00:00 until the capture starts and 09:01:00.25 after. *)
Definition plain_world : World :=
  mkWorld (fun n => if (n <? 7)%nat then at_time 9 0 0 0 else at_time 9 1 0 250000)
    ∅ "/home/pi/app/scripts"
    (inl "No Default Input Device Available") (fun _ => inl "Invalid device")
    (fun _ => None) (fun _ => inr [Byte.x00]) (fun _ => None).

Definition set_open (o : nat -> option string) (W : World) : World :=
  mkWorld (clock W) (dotenv W) (script_dir W) (default_input W) (device_info W)
    o (read_outcome W) (upload_outcome W).

Definition set_read (r : nat -> string + bytes) (W : World) : World :=
  mkWorld (clock W) (dotenv W) (script_dir W) (default_input W) (device_info W)
    (open_outcome W) r (upload_outcome W).

Definition set_upload (u : nat -> option string) (W : World) : World :=
  mkWorld (clock W) (dotenv W) (script_dir W) (default_input W) (device_info W)
    (open_outcome W) (read_outcome W) u.

Definition state_with (env : list (string * string)) : State :=
  mkState (list_to_map env) 0 [] [] ∅ 0 ∅ 0 ∅ [] 0 [] ∅ [].

Definition boot_state : State := state_with [].

Definition demo_config : Config := mkConfig "AKIAEXAMPLE" "secret" "field-audio" "prefix/".
Definition demo_client : S3Client := boto3_client "AKIAEXAMPLE" "secret".

(** What logging and reading from the stream leave untouched: everything but
    the log, the console, the count of reads and the clock, which only moves
    forward. *)
Definition logs_only (s s' : State) : Prop :=
  environ s' = environ s /\ files s' = files s /\
  pa_next s' = pa_next s /\ pa_live s' = pa_live s /\
  stream_next s' = stream_next s /\ streams s' = streams s /\
  open_calls s' = open_calls s /\ upload_calls s' = upload_calls s /\
  bucket s' = bucket s /\ sleeps s' = sleeps s /\
  (ticks s <= ticks s')%nat.

(** The state after one [log_message] *)
Definition logged (W : World) (message : string) (s : State) : State :=
  snd (log_message W message s).

(** The value [_int_from_env] finds for a variable in the environment of [s]:
    the integer the text parses to, the default when the variable is unset,
    empty or unparseable. *)
Definition env_int (s : State) (name : string) (dflt : Z) : Z :=
  match environ s !! name with
  | Some (String c v) =>
      match int_of_str (String c v) with
      | Ok z => z
      | Raise _ => dflt
      end
  | _ => dflt
  end.

(** The state in which a session resolves its settings: the start time has
    been read and the PyAudio instance created. *)
Definition session_entry (W : World) (s : State) : State :=
  snd (PyAudio (snd (datetime_now W s))).

(** The line [get_config] prints for a variable *)
Definition value_line (vals : ConfigKey -> string) (k : ConfigKey) : string :=
  "Value: " +:+ key_name k +:+ vals k.

(** ** The test script, [scripts/pi_test_recording.py] *)

(** [try: body / finally: final] *)
Definition try_finally {A} (body : M A) (final : M unit) : M A :=
  fun s =>
    let '(r, s1) := body s in
    match final s1 with
    | (Ok _, s2) => (r, s2)
    | (Raise e, s2) => (Raise e, s2)
    end.

(** Size of a file in bytes; a container is a header of 44 bytes followed by
    the sample data. *)
Definition file_size (f : File) : Z :=
  match f with
  | Plain content => Z.of_nat (length content)
  | WavFile w => 44 + Z.of_nat (length (wav_data w))
  end.

(** [os.path.getsize(path)] *)
Definition os_path_getsize (path : string) : M Z :=
  fun s => match files s !! path with
           | Some f => (Ok (file_size f), s)
           | None => (Raise (PyExc OSError ("No such file or directory: " +:+ path)), s)
           end.

(** One entry of the device table as [test_audio_devices] reads it: the
    three keys it looks up, the default rate as the f-string prints it. *)
Record DeviceEntry := mkDeviceEntry {
  de_name : string;
  de_maxInputChannels : Z;
  de_defaultSampleRate : string
}.

(** What PortAudio answers about its devices. *)
Record DeviceTable := mkDeviceTable {
  device_count : Z;                           (* get_device_count() *)
  device_entry : Z -> string + DeviceEntry    (* get_device_info_by_index(i) *)
}.

(** [s * n] for a string and a count *)
Fixpoint str_mul (s : string) (n : nat) : string :=
  match n with
  | O => ""
  | S n' => s +:+ str_mul s n'
  end.

(** The check mark and the ballot cross of the messages, in UTF-8 *)
Definition check_mark : string :=
  String (ascii_of_nat 226) (String (ascii_of_nat 156) (String (ascii_of_nat 147) "")).
Definition ballot_x : string :=
  String (ascii_of_nat 226) (String (ascii_of_nat 156) (String (ascii_of_nat 151) "")).

Module pi_test_recording.

Definition SAMPLE_RATE : Z := 44100.
Definition CHANNELS : Z := 1.
Definition CHUNK_SIZE : Z := 1024.
Definition FORMAT : SampleFormat := paInt16.
Definition TEST_DURATION : Z := 5.

Section Script.

Variable W : World.

(** The loop of [test_recording], [n] iterations left: a read that raises is
    not caught here, so it ends the loop. *)
Fixpoint read_all (n : nat) (stream : nat) (frames : list bytes) : M (list bytes) :=
  match n with
  | O => ret frames
  | S n' =>
      let* data := stream_read W stream CHUNK_SIZE in
      read_all n' stream (frames ++ [data])
  end.

Definition test_recording (duration : Z) : M bool :=
  let* _ := print ("Testing recording for " +:+ pretty duration +:+ " seconds...") in
  let* p := PyAudio in
  try_finally
    (try_except
       (let* stream := pa_open W p (mkOpenCall FORMAT CHANNELS SAMPLE_RATE true CHUNK_SIZE
                                      None) in
        let* _ := print "Recording started... (speak into microphone)" in
        let* total := lift (total_chunks_of SAMPLE_RATE CHUNK_SIZE duration) in
        let* frames := read_all (Z.to_nat total) stream [] in
        let* _ := stop_stream stream in
        let* _ := stream_close stream in
        let* now := datetime_now W in
        let timestamp := strftime_compact now in
        let test_filename := "test_recording_" +:+ timestamp +:+ ".wav" in
        let* _ := with_wave_open test_filename
                    [ setnchannels CHANNELS;
                      setsampwidth (get_sample_size FORMAT);
                      setframerate SAMPLE_RATE;
                      writeframes (concat frames) ] in
        let* _ := print ("Test recording saved: " +:+ test_filename) in
        let* size := os_path_getsize test_filename in
        let* _ := print ("File size: " +:+ pretty size +:+ " bytes") in
        ret true)
       (fun e =>
          let* _ := print ("Recording test failed: " +:+ exn_str e) in
          ret false))
    (terminate p).

Variable T : DeviceTable.

(** [range(n)] *)
Definition range (n : Z) : list Z := map Z.of_nat (seq 0 (Z.to_nat n)).

(** The loop of [test_audio_devices] over the indices still to visit *)
Fixpoint list_devices (indices : list Z) : M unit :=
  match indices with
  | [] => ret tt
  | i :: rest =>
      let* dev_info :=
        match device_entry T i with
        | inl msg => raise (PyExc OSError msg)
        | inr e => ret e
        end in
      let* _ :=
        if 0 <? de_maxInputChannels dev_info then
          let* _ := print ("Device " +:+ pretty i +:+ ": " +:+ de_name dev_info) in
          let* _ := print ("  - Max input channels: " +:+
                            pretty (de_maxInputChannels dev_info)) in
          print ("  - Default sample rate: " +:+ de_defaultSampleRate dev_info)
        else ret tt in
      list_devices rest
  end.

Definition test_audio_devices : M unit :=
  let* _ := print "Available audio input devices:" in
  let* p := PyAudio in
  let* _ := list_devices (range (device_count T)) in
  terminate p.

Definition main : M unit :=
  let* _ := print "Raspberry Pi Audio Recording Test" in
  let* _ := print (str_mul "=" 40) in
  let* _ := print (nl +:+ "1. Testing audio devices...") in
  let* _ := test_audio_devices in
  let* _ := print (nl +:+ "2. Testing recording (" +:+ pretty TEST_DURATION +:+
                   " seconds)...") in
  let* passed := test_recording TEST_DURATION in
  let* _ :=
    if passed : bool then print (check_mark +:+ " Recording test passed!")
    else
      let* _ := print (ballot_x +:+ " Recording test failed!") in
      sys_exit 1 in
  let* _ := print (nl +:+ check_mark +:+ " All tests completed successfully!") in
  print "The Pi is ready for audio recording.".

End Script.

End pi_test_recording.

(** The first of the reads [start], ..., [start + n - 1] that fails: how many
    reads succeeded before it, and the text of its error. *)
Fixpoint first_failure (W : World) (start n : nat) : option (nat * string) :=
  match n with
  | O => None
  | S n' =>
      match read_outcome W start with
      | inl msg => Some (O, msg)
      | inr _ =>
          match first_failure W (S start) n' with
          | Some (i, msg) => Some (S i, msg)
          | None => None
          end
      end
  end.

(** What the listing prints for the device [i] *)
Definition device_lines (T : DeviceTable) (i : Z) : list string :=
  match device_entry T i with
  | inr e =>
      if 0 <? de_maxInputChannels e then
        [ "Device " +:+ pretty i +:+ ": " +:+ de_name e;
          "  - Max input channels: " +:+ pretty (de_maxInputChannels e);
          "  - Default sample rate: " +:+ de_defaultSampleRate e ]
      else []
  | inl _ => []
  end.

(** Splitting a conjunction of closed facts without unfolding its parts *)
Ltac conjuncts := repeat match goal with |- _ /\ _ => split end.

(** ** The recording window *)

Lemma dt_time_clamped h : dt_time (clamp_hour h) 0 = Ok (mkTime (clamp_hour h) 0 0 0).
Proof.
  unfold dt_time, clamp_hour.
  replace (0 <=? Z.min (Z.max h 0) 23) with true by (symmetry; apply Z.leb_le; lia).
  replace (Z.min (Z.max h 0) 23 <=? 23) with true by (symmetry; apply Z.leb_le; lia).
  reflexivity.
Qed.

(** The test never raises, and compares the whole time of day. *)
Lemma is_recording_time_run W recording_hours s :
  is_recording_time W recording_hours s =
  (Ok (time_le (mkTime (clamp_hour (fst recording_hours)) 0 0 0)
               (dt_time_of (clock W (ticks s))) &&
       time_le (dt_time_of (clock W (ticks s)))
               (mkTime (clamp_hour (snd recording_hours)) 0 0 0)),
   set_ticks (S (ticks s)) s).
Proof.
  unfold is_recording_time, bind, lift, ret, datetime_now.
  fold (clamp_hour (fst recording_hours)) (clamp_hour (snd recording_hours)).
  rewrite !dt_time_clamped. reflexivity.
Qed.

Lemma time_le_from_hour lo (t : DayTime) :
  0 <= t_minute t -> 0 <= t_second t -> 0 <= t_microsecond t ->
  time_le (mkTime lo 0 0 0) t = true <-> lo <= t_hour t.
Proof.
  intros Hm Hs Hu. unfold time_le, time_cmp. cbn [t_hour t_minute t_second t_microsecond].
  destruct (Z.compare_spec lo (t_hour t)); [| split; [lia | reflexivity] |].
  - destruct (Z.compare_spec 0 (t_minute t)); [| split; [lia | reflexivity] | lia].
    destruct (Z.compare_spec 0 (t_second t)); [| split; [lia | reflexivity] | lia].
    destruct (Z.compare_spec 0 (t_microsecond t)); try lia; split; try reflexivity; lia.
  - split; [discriminate | lia].
Qed.

Lemma time_le_to_hour hi (t : DayTime) :
  0 <= t_minute t -> 0 <= t_second t -> 0 <= t_microsecond t ->
  time_le t (mkTime hi 0 0 0) = true <->
  t_hour t < hi \/ (t_hour t = hi /\ t_minute t = 0 /\ t_second t = 0 /\ t_microsecond t = 0).
Proof.
  intros Hm Hs Hu. unfold time_le, time_cmp. cbn [t_hour t_minute t_second t_microsecond].
  destruct (Z.compare_spec (t_hour t) hi); [| split; [lia | reflexivity] |].
  - destruct (Z.compare_spec (t_minute t) 0); [| lia |].
    + destruct (Z.compare_spec (t_second t) 0); [| lia |].
      * destruct (Z.compare_spec (t_microsecond t) 0); [| lia |].
        -- split; [lia | reflexivity].
        -- split; [discriminate | lia].
      * split; [discriminate | lia].
    + split; [discriminate | lia].
  - split; [discriminate | lia].
Qed.

(** C7.  For the window [9,18] the test answers: out of the window at 08:59
    (whatever the seconds), inside at exactly 09:00 and at exactly 18:00, out
    of the window at 18:01 (whatever the seconds).  The date, the rest of the
    world and the state do not matter. *)
Theorem window_9_18_probes (W : World) (s : State) (y mo d sec us : Z) :
  let probe h m sec us :=
    fst (is_recording_time (with_clock (fun _ => mkDateTime y mo d h m sec us) W) (9, 18) s) in
  probe 8 59 sec us = Ok false /\
  probe 9 0 0 0 = Ok true /\
  probe 18 0 0 0 = Ok true /\
  probe 18 1 sec us = Ok false.
Proof.
  cbv beta zeta. rewrite !is_recording_time_run. cbn. repeat split; reflexivity.
Qed.

(** C4, as the claim states it, fails: at 18:30 the hour lies in [9,18], yet
    the test answers that the time is outside the window. *)
Lemma end_hour_is_not_in_window :
  spec_hour_in_window (9, 18) (at_time 18 30 0 0) = true /\
  fst (is_recording_time (with_clock (fun _ => at_time 18 30 0 0) plain_world) (9, 18)
         boot_state) = Ok false.
Proof. split; reflexivity. Qed.

(** C4, amended.  The test compares the full time of day, down to the
    microsecond, with the range from startHour:00:00 to endHour:00:00, both
    hours clamped to [0,23] and both ends included: a time is inside iff its
    hour is at least the start hour and either its hour is below the end hour
    or it is exactly endHour:00:00.000000.  The test never raises. *)
Theorem is_recording_time_exact (W : World) (recording_hours : Z * Z) (s : State) :
  let now := clock W (ticks s) in
  let lo := clamp_hour (fst recording_hours) in
  let hi := clamp_hour (snd recording_hours) in
  0 <= minute now -> 0 <= second now -> 0 <= microsecond now ->
  exists b, fst (is_recording_time W recording_hours s) = Ok b /\
    (b = true <->
     lo <= hour now /\
     (hour now < hi \/
      (hour now = hi /\ minute now = 0 /\ second now = 0 /\ microsecond now = 0))).
Proof.
  cbv zeta. intros Hm Hs Hu. rewrite is_recording_time_run. cbn [fst].
  eexists. split; [reflexivity |].
  rewrite andb_true_iff.
  rewrite (time_le_from_hour _ (dt_time_of (clock W (ticks s)))) by assumption.
  rewrite (time_le_to_hour _ (dt_time_of (clock W (ticks s)))) by assumption.
  reflexivity.
Qed.

Lemma is_recording_time_exact_witness :
  exists b, fst (is_recording_time (with_clock (fun _ => at_time 18 30 0 0) plain_world)
                   (9, 18) boot_state) = Ok b /\
    (b = true <->
     clamp_hour 9 <= 18 /\
     (18 < clamp_hour 18 \/ (18 = clamp_hour 18 /\ 30 = 0 /\ 0 = 0 /\ 0 = 0))).
Proof.
  apply (is_recording_time_exact (with_clock (fun _ => at_time 18 30 0 0) plain_world)
           (9, 18) boot_state); cbn; lia.
Defined.


(** ** Running the monad *)

Lemma bind_ok {A B} (m : M A) (k : A -> M B) s a s' :
  m s = (Ok a, s') -> bind m k s = k a s'.
Proof. intros H. unfold bind. rewrite H. reflexivity. Qed.

Lemma bind_raise {A B} (m : M A) (k : A -> M B) s e s' :
  m s = (Raise e, s') -> bind m k s = (Raise e, s').
Proof. intros H. unfold bind. rewrite H. reflexivity. Qed.

Lemma try_ok {A} (body : M A) handler s a s' :
  body s = (Ok a, s') -> try_except body handler s = (Ok a, s').
Proof. intros H. unfold try_except. rewrite H. reflexivity. Qed.

Lemma try_caught {A} (body : M A) handler s k msg s' :
  body s = (Raise (PyExc k msg), s') ->
  try_except body handler s = handler (PyExc k msg) s'.
Proof. intros H. unfold try_except. rewrite H. reflexivity. Qed.

(** ** Frames *)

Lemma logs_only_refl s : logs_only s s.
Proof. unfold logs_only. repeat split; reflexivity. Qed.

Lemma logs_only_trans s1 s2 s3 : logs_only s1 s2 -> logs_only s2 s3 -> logs_only s1 s3.
Proof.
  unfold logs_only. intros (?&?&?&?&?&?&?&?&?&?&?) (?&?&?&?&?&?&?&?&?&?&?).
  repeat split; try congruence. lia.
Qed.

Lemma logs_only_quiet s s' : logs_only s s' -> quiet s s'.
Proof. unfold logs_only, quiet. intros (?&?&?&?&?&?&?&?&?&?&?). repeat split; assumption. Qed.

Lemma quiet_refl s : quiet s s.
Proof. unfold quiet. repeat split; reflexivity. Qed.

Lemma quiet_trans s1 s2 s3 : quiet s1 s2 -> quiet s2 s3 -> quiet s1 s3.
Proof.
  unfold quiet. intros (?&?&?&?&?) (?&?&?&?&?). repeat split; try congruence. lia.
Qed.

Lemma keeps_ret {A} (a : A) : keeps (ret a).
Proof. intros s. apply quiet_refl. Qed.

Lemma keeps_raise {A} e : keeps (@raise A e).
Proof. intros s. apply quiet_refl. Qed.

Lemma keeps_lift {A} (r : Res A) : keeps (lift r).
Proof. intros s. apply quiet_refl. Qed.

Lemma keeps_bind {A B} (m : M A) (k : A -> M B) :
  keeps m -> (forall a, keeps (k a)) -> keeps (bind m k).
Proof.
  intros Hm Hk s. unfold bind. specialize (Hm s).
  destruct (m s) as [[a | e] s1]; cbn [snd] in *; [| assumption].
  eapply quiet_trans; [eassumption | apply Hk].
Qed.

Lemma keeps_try_except {A} (body : M A) handler :
  keeps body -> (forall e, keeps (handler e)) -> keeps (try_except body handler).
Proof.
  intros Hb Hh s. unfold try_except. specialize (Hb s).
  destruct (body s) as [[a | e] s1]; cbn [snd] in *; [assumption |].
  destruct (is_Exception e); [| assumption].
  eapply quiet_trans; [eassumption | apply Hh].
Qed.

Create HintDb frame.

Section Primitives.

Variable W : World.

Lemma log_message_run m s : log_message W m s = (Ok tt, logged W m s).
Proof. reflexivity. Qed.

Lemma logged_logs_only m s : logs_only s (logged W m s).
Proof. unfold logs_only. cbn. repeat split; lia. Qed.

Lemma logged_reads m s : reads (logged W m s) = reads s.
Proof. reflexivity. Qed.

Lemma logged_ticks m s : ticks (logged W m s) = S (S (ticks s)).
Proof. reflexivity. Qed.

Lemma logged_log m s :
  exists file stamp, log (logged W m s) = log s ++ [(file, "[" +:+ stamp +:+ "] " +:+ m +:+ nl)].
Proof. eexists _, _. reflexivity. Qed.

Lemma keeps_log_message m : keeps (log_message W m).
Proof. intros s. apply logs_only_quiet, logged_logs_only. Qed.

Lemma keeps_datetime_now : keeps (datetime_now W).
Proof. intros s. unfold quiet. cbn. repeat split; lia. Qed.

Lemma keeps_os_getenv name dflt : keeps (os_getenv name dflt).
Proof. intros s. apply quiet_refl. Qed.

Lemma keeps_PyAudio : keeps PyAudio.
Proof. intros s. unfold quiet. cbn. repeat split; lia. Qed.

Lemma keeps_get_default_input_device_info p : keeps (get_default_input_device_info W p).
Proof. unfold get_default_input_device_info. destruct (default_input W); intros ?; apply quiet_refl. Qed.

Lemma keeps_get_device_info_by_index p i : keeps (get_device_info_by_index W p i).
Proof. unfold get_device_info_by_index. destruct (device_info W i); intros ?; apply quiet_refl. Qed.

Lemma keeps_pa_open p c : keeps (pa_open W p c).
Proof.
  intros s. unfold pa_open. destruct (open_outcome W _); unfold quiet; cbn; repeat split; lia.
Qed.

Lemma keeps_stream_read st n : keeps (stream_read W st n).
Proof.
  intros s. unfold stream_read. destruct (read_outcome W _); unfold quiet; cbn; repeat split; lia.
Qed.

Lemma keeps_stream_close st : keeps (stream_close st).
Proof. intros s. unfold quiet. cbn. repeat split; lia. Qed.

Lemma keeps_terminate p : keeps (terminate p).
Proof. intros s. unfold quiet. cbn. repeat split; lia. Qed.

Lemma keeps_with_wave_open path steps : keeps (with_wave_open path steps).
Proof.
  intros s. unfold with_wave_open, bind, file_create.
  destruct (run_steps steps ww_new) as [wf [e |]];
    destruct (ensure_header wf); unfold quiet; cbn; repeat split; lia.
Qed.

End Primitives.

#[export] Hint Resolve keeps_log_message keeps_datetime_now keeps_os_getenv keeps_PyAudio
  keeps_get_default_input_device_info keeps_get_device_info_by_index keeps_pa_open
  keeps_stream_read keeps_stream_close keeps_terminate keeps_with_wave_open : frame.

(** Walks through a program built from [bind], [try_except] and case
    distinctions, leaving the primitives to the [frame] hints. *)
Ltac frame :=
  repeat first
    [ solve [auto with frame]
    | apply keeps_ret | apply keeps_raise | apply keeps_lift
    | apply keeps_bind; [| intros ?]
    | apply keeps_try_except; [| intros ?]
    | match goal with
      | |- keeps (match ?x with _ => _ end) => destruct x
      end ].

Section Compound.

Variable W : World.

Lemma keeps_int_from_env name dflt : keeps (_int_from_env name dflt).
Proof. unfold _int_from_env. frame. Qed.

Lemma keeps_resolve_input_device_index p : keeps (resolve_input_device_index W p).
Proof. unfold resolve_input_device_index. frame. Qed.

Lemma keeps_get_audio_settings p : keeps (get_audio_settings W p).
Proof.
  unfold get_audio_settings.
  pose proof keeps_int_from_env. pose proof keeps_resolve_input_device_index.
  frame.
Qed.

Lemma keeps_read_loop n st cs frames : keeps (read_loop W n st cs frames).
Proof. revert frames. induction n as [| n IH]; intros frames; cbn [read_loop]; frame. Qed.

Lemma keeps_record_audio d name sr ch cs dev p : keeps (record_audio W d name sr ch cs dev p).
Proof. unfold record_audio, os_makedirs, stop_stream. pose proof keeps_read_loop. frame. Qed.

End Compound.


(** ** Capture and encoding *)

Section Capture.

Variable W : World.

Lemma captured_step start n :
  captured W start (S n) =
  match read_ok W start with
  | Some data => data :: captured W (S start) n
  | None => captured W (S start) n
  end.
Proof. unfold captured. simpl. destruct (read_ok W start); reflexivity. Qed.

Lemma failed_step start n :
  failed W start (S n) =
  match read_ok W start with
  | Some _ => failed W (S start) n
  | None => S (failed W (S start) n)
  end.
Proof.
  unfold failed. cbn [seq]. rewrite filter_cons.
  destruct (read_ok W start) eqn:E; case_decide; try congruence; reflexivity.
Qed.


(** The capture loop never raises and returns the successful reads in the
    order they were made. *)
Lemma read_loop_run n st cs frames s :
  exists s', read_loop W n st cs frames s = (Ok (frames ++ captured W (reads s) n), s') /\
             logs_only s s' /\ reads s' = (reads s + n)%nat.
Proof.
  revert frames s. induction n as [| n IH]; intros frames s.
  - exists s. cbn [read_loop]. unfold captured. simpl. rewrite app_nil_r.
    repeat split; [apply logs_only_refl | lia].
  - cbn [read_loop]. rewrite captured_step. unfold read_ok.
    destruct (read_outcome W (reads s)) as [msg | data] eqn:E.
    + destruct (IH frames (logged W ("[WARN] stream.read issue (continuing): " +:+ msg)
                             (set_reads (S (reads s)) s))) as (s' & Hrun & Hfr & Hrd).
      exists s'. split; [| split].
      * erewrite bind_ok; [exact Hrun |].
        erewrite try_caught; [| unfold bind, stream_read; rewrite E; reflexivity].
        reflexivity.
      * eapply logs_only_trans; [| exact Hfr].
        eapply logs_only_trans; [| apply logged_logs_only].
        unfold logs_only. cbn. repeat split; lia.
      * rewrite Hrd. cbn. lia.
    + destruct (IH (frames ++ [data]) (set_reads (S (reads s)) s)) as (s' & Hrun & Hfr & Hrd).
      exists s'. split; [| split].
      * erewrite bind_ok; [rewrite Hrun; rewrite <- app_assoc; reflexivity |].
        erewrite try_ok; [reflexivity |].
        unfold bind, stream_read. rewrite E. reflexivity.
      * eapply logs_only_trans; [| exact Hfr].
        unfold logs_only. cbn. repeat split; lia.
      * rewrite Hrd. cbn. lia.
Qed.

(** The four calls on the writer in [record_audio]. *)
Lemma wave_steps_run ch sr data :
  run_steps [setnchannels ch; setsampwidth (get_sample_size FORMAT); setframerate sr;
             writeframes data] ww_new =
  if 1 <=? ch then
    if 1 <=? sr then (mkWaveWrite ch 2 sr data, None)
    else (mkWaveWrite ch 2 0 [], Some (PyExc WaveError "bad frame rate"))
  else (ww_new, Some (PyExc WaveError "bad # of channels")).
Proof.
  cbn [run_steps]. unfold setnchannels.
  destruct (Z.ltb_spec ch 1); destruct (Z.leb_spec 1 ch); try lia; [reflexivity |].
  simpl. unfold setframerate.
  destruct (Z.leb_spec sr 0); destruct (Z.leb_spec 1 sr); try lia; [reflexivity |].
  simpl. unfold writeframes, ensure_header, rbind. simpl.
  destruct (Z.eqb_spec ch 0); [lia |]. destruct (Z.eqb_spec sr 0); [lia |]. reflexivity.
Qed.

(** What the [with wave.open] block of [record_audio] does: with at least one
    channel and a positive rate it stores the container, otherwise it leaves
    an empty file and raises. *)
Lemma wave_block_run path ch sr data s :
  with_wave_open path
    [setnchannels ch; setsampwidth (get_sample_size FORMAT); setframerate sr; writeframes data] s =
  if (1 <=? ch) && (1 <=? sr) then
    (Ok tt,
     set_files (<[path := WavFile (mkWav ch 2 sr (Z.of_nat (length data) / (2 * ch)) data)]>
                  (<[path := Plain []]> (files s))) s)
  else
    (Raise (PyExc WaveError (if 1 <=? ch then "sampling rate not specified"
                             else "# channels not specified")),
     set_files (<[path := Plain []]> (files s)) s).
Proof.
  unfold with_wave_open, bind, file_create. rewrite wave_steps_run.
  destruct (Z.leb_spec 1 ch); [| reflexivity].
  destruct (Z.leb_spec 1 sr); unfold ensure_header;
    cbn [ww_nchannels ww_sampwidth ww_framerate ww_frames andb];
    (destruct (Z.eqb_spec ch 0); [lia |]).
  - destruct (Z.eqb_spec sr 0); [lia |]. reflexivity.
  - reflexivity.
Qed.

End Capture.


(** ** [record_audio], path by path *)

Lemma total_chunks_raises_exception sr cs d e :
  total_chunks_of sr cs d = Raise e -> exists k msg, e = PyExc k msg.
Proof.
  unfold total_chunks_of, rbind, int_truediv, float_mul_int, float_of_int, int_of_float.
  repeat match goal with
         | |- context [if ?x then _ else _] => destruct x
         | |- context [match ?x with _ => _ end] => destruct x
         end;
    intros H; inversion H; eauto.
Qed.

Section RecordAudio.

Variable W : World.
Variables (d : Z) (name : string) (sr ch cs : Z) (dev : option Z) (p : nat) (s : State).

Let call := mkOpenCall FORMAT ch sr true cs dev.
Let out := path_join (DIR_TEMP_RECORDINGS W) name.
Let opened :=
  set_streams (S (stream_next s)) (<[stream_next s := p]> (streams s))
    (set_open_calls (open_calls s ++ [call]) s).

(** The stream cannot be opened: the failure is reported, and nothing is
    released. *)
Lemma record_audio_open_fails msg :
  open_outcome W (length (open_calls s)) = Some msg ->
  record_audio W d name sr ch cs dev p s =
  (Ok false, logged W ("[ERROR] Recording failed: " +:+ msg)
               (set_open_calls (open_calls s ++ [call]) s)).
Proof.
  intros Hopen. unfold record_audio.
  erewrite try_caught; [reflexivity |].
  erewrite bind_ok by reflexivity.
  erewrite bind_raise; [reflexivity |].
  unfold pa_open. rewrite Hopen. reflexivity.
Qed.

(** The stream opens, but the chunk count cannot be computed: the failure is
    reported with the stream still open. *)
Lemma record_audio_count_fails e :
  open_outcome W (length (open_calls s)) = None ->
  total_chunks_of sr cs d = Raise e ->
  record_audio W d name sr ch cs dev p s =
  (Ok false, logged W ("[ERROR] Recording failed: " +:+ exn_str e)
               (logged W ("Starting recording for " +:+ pretty d +:+ " seconds") opened)).
Proof.
  intros Hopen Hcount. unfold record_audio.
  destruct (total_chunks_raises_exception _ _ _ _ Hcount) as (k & msg & ->).
  erewrite try_caught; [reflexivity |].
  erewrite bind_ok by reflexivity.
  erewrite bind_ok by (unfold pa_open; rewrite Hopen; reflexivity).
  erewrite bind_ok by apply log_message_run.
  erewrite bind_raise; [reflexivity |].
  unfold lift. rewrite Hcount. reflexivity.
Qed.

(** The stream opens and the chunk count is [n]: the outcome depends on
    whether the container accepts the parameters. *)
Lemma record_audio_captures n :
  open_outcome W (length (open_calls s)) = None ->
  total_chunks_of sr cs d = Ok n ->
  let frames := captured W (reads s) (Z.to_nat n) in
  let r := record_audio W d name sr ch cs dev p s in
  fst r = Ok ((1 <=? ch) && (1 <=? sr)) /\
  files (snd r) =
    (if (1 <=? ch) && (1 <=? sr) then
       <[out := WavFile (mkWav ch 2 sr (Z.of_nat (length (concat frames)) / (2 * ch))
                           (concat frames))]> (<[out := Plain []]> (files s))
     else <[out := Plain []]> (files s)) /\
  streams (snd r) = filter (fun kv => kv.2 ≠ p) (delete (stream_next s) (streams opened)) /\
  pa_live (snd r) = pa_live s ∖ {[p]} /\
  open_calls (snd r) = open_calls s ++ [call] /\
  reads (snd r) = (reads s + Z.to_nat n)%nat /\
  quiet s (snd r).
Proof.
  intros Hopen Hcount frames r.
  pose proof (keeps_record_audio W d name sr ch cs dev p s) as Hquiet. fold r in Hquiet.
  destruct (read_loop_run W (Z.to_nat n) (stream_next s) cs []
              (logged W ("Starting recording for " +:+ pretty d +:+ " seconds") opened))
    as (s1 & Hloop & Hfr & Hrd).
  rewrite logged_reads in Hloop, Hrd. cbn [reads opened set_streams set_open_calls] in Hloop, Hrd.
  cbn [app] in Hloop. fold frames in Hloop.
  assert (Hfr' : logs_only opened s1).
  { eapply logs_only_trans; [apply logged_logs_only | exact Hfr]. }
  destruct Hfr' as (_ & Hfiles & Hpan & Hpal & Hsn & Hst & Hoc & _).
  set (s2 := set_pa (pa_next s1) (pa_live s1 ∖ {[p]})
               (set_streams (stream_next s1)
                  (filter (fun kv => kv.2 ≠ p) (delete (stream_next s) (streams s1))) s1)).
  assert (Hbody : forall (k : unit -> M bool),
    bind (os_makedirs (DIR_TEMP_RECORDINGS W)) (fun _ =>
    bind (pa_open W p call) (fun stream =>
    bind (log_message W ("Starting recording for " +:+ pretty d +:+ " seconds")) (fun _ =>
    bind (lift (total_chunks_of sr cs d)) (fun total_chunks =>
    bind (read_loop W (Z.to_nat total_chunks) stream cs []) (fun frames =>
    bind (stop_stream stream) (fun _ =>
    bind (stream_close stream) (fun _ =>
    bind (terminate p) (fun _ =>
    bind (with_wave_open out
            [setnchannels ch; setsampwidth (get_sample_size FORMAT); setframerate sr;
             writeframes (concat frames)]) k)))))))) s =
    bind (with_wave_open out
            [setnchannels ch; setsampwidth (get_sample_size FORMAT); setframerate sr;
             writeframes (concat frames)]) k s2).
  { intros k.
    erewrite bind_ok by reflexivity.
    erewrite bind_ok by (unfold pa_open; rewrite Hopen; reflexivity).
    erewrite bind_ok by apply log_message_run.
    erewrite bind_ok by (unfold lift; rewrite Hcount; reflexivity).
    erewrite bind_ok by exact Hloop.
    reflexivity. }
  assert (Hrun : exists message,
    r = (Ok ((1 <=? ch) && (1 <=? sr)),
         logged W message
           (set_files
              (if (1 <=? ch) && (1 <=? sr) then
                 <[out := WavFile (mkWav ch 2 sr (Z.of_nat (length (concat frames)) / (2 * ch))
                                     (concat frames))]> (<[out := Plain []]> (files s2))
               else <[out := Plain []]> (files s2)) s2))).
  { subst r. unfold record_audio. fold call out.
    unfold try_except. rewrite Hbody. unfold bind at 1. rewrite wave_block_run.
    destruct ((1 <=? ch) && (1 <=? sr)).
    - erewrite bind_ok by apply log_message_run. eexists. reflexivity.
    - cbn [is_Exception]. erewrite bind_ok by apply log_message_run. eexists. reflexivity. }
  destruct Hrun as (message & Hrun).
  enough (G : fst r = Ok ((1 <=? ch) && (1 <=? sr)) /\
    files (snd r) =
      (if (1 <=? ch) && (1 <=? sr) then
         <[out := WavFile (mkWav ch 2 sr (Z.of_nat (length (concat frames)) / (2 * ch))
                             (concat frames))]> (<[out := Plain []]> (files s))
       else <[out := Plain []]> (files s)) /\
    streams (snd r) = filter (fun kv => kv.2 ≠ p) (delete (stream_next s) (streams opened)) /\
    pa_live (snd r) = pa_live s ∖ {[p]} /\
    open_calls (snd r) = open_calls s ++ [call] /\
    reads (snd r) = (reads s + Z.to_nat n)%nat)
    by (destruct G as (G1 & G2 & G3 & G4 & G5 & G6);
        exact (conj G1 (conj G2 (conj G3 (conj G4 (conj G5 (conj G6 Hquiet))))))).
  clear Hquiet. rewrite Hrun. clear Hrun.
  pose proof (logged_logs_only W message
    (set_files
       (if (1 <=? ch) && (1 <=? sr) then
          <[out := WavFile (mkWav ch 2 sr (Z.of_nat (length (concat frames)) / (2 * ch))
                              (concat frames))]> (<[out := Plain []]> (files s2))
        else <[out := Plain []]> (files s2)) s2)) as (_ & Hf & _ & Hl & _ & Hs & Ho & _).
  cbn [fst snd]. rewrite Hf, Hl, Hs, Ho, logged_reads.
  cbn -[path_join]. rewrite Hfiles, Hst, Hpal, Hoc, Hrd.
  cbn -[path_join]. repeat split; try reflexivity; try assumption.
Qed.

End RecordAudio.


(** ** Chunk count, container header, release of the device *)




(** C8.  Whenever [record_audio] reports success, the container it wrote has
    as header exactly the parameters it was called with: the channel count,
    the rate, and two bytes per sample, the size of the fixed 16-bit format.
    This holds for every outcome of the reads, so for every number of
    captured chunks. *)
Theorem wav_header_matches_params (W : World) (d : Z) (name : string) (sr ch cs : Z)
    (dev : option Z) (p : nat) (s : State) :
  let r := record_audio W d name sr ch cs dev p s in
  fst r = Ok true ->
  get_sample_size FORMAT = 2 /\
  exists nframes data,
    files (snd r) !! path_join (DIR_TEMP_RECORDINGS W) name =
    Some (WavFile (mkWav ch (get_sample_size FORMAT) sr nframes data)).
Proof.
  intros r Hok. split; [reflexivity |]. subst r.
  destruct (open_outcome W (length (open_calls s))) as [msg |] eqn:Hopen.
  { rewrite (record_audio_open_fails W d name sr ch cs dev p s msg Hopen) in Hok.
    discriminate Hok. }
  destruct (total_chunks_of sr cs d) as [n | e] eqn:Hcount.
  - destruct (record_audio_captures W d name sr ch cs dev p s n Hopen Hcount)
      as (Hres & Hfiles & _).
    rewrite Hres in Hok. injection Hok as Hparams. rewrite Hparams in Hfiles.
    eexists _, _. rewrite Hfiles. apply lookup_insert_eq.
  - rewrite (record_audio_count_fails W d name sr ch cs dev p s e Hopen Hcount) in Hok.
    discriminate Hok.
Qed.

(** A session with the default parameters in which every read fails: no
    chunk is captured, and the header still carries the parameters. *)
Lemma wav_header_matches_params_witness :
  let W := set_read (fun _ => inl "Input overflowed") plain_world in
  let r := record_audio W 60 "take.wav" 44100 1 2048 None 0 boot_state in
  reads (snd r) = 1291%nat /\ captured W 0 1291 = [] /\
  get_sample_size FORMAT = 2 /\
  exists nframes data,
    files (snd r) !! path_join (DIR_TEMP_RECORDINGS W) "take.wav" =
    Some (WavFile (mkWav 1 (get_sample_size FORMAT) 44100 nframes data)).
Proof.
  cbv zeta. split; [vm_compute; reflexivity |]. split; [vm_compute; reflexivity |].
  apply (wav_header_matches_params (set_read (fun _ => inl "Input overflowed") plain_world)
           60 "take.wav" 44100 1 2048 None 0%nat boot_state).
  vm_compute. reflexivity.
Defined.

(** C3.  Two exits of [record_audio] on which nothing is released.  The
    session has created its PyAudio instance (number 0).  When the stream
    cannot be opened, [record_audio] returns [False] and the instance is
    still live.  When the chunk size is 0, the stream opens, the division
    raises, [record_audio] returns [False], and both the stream and the
    instance are still live. *)
Theorem record_audio_leaks_on_failure :
  let s := snd (PyAudio boot_state) in
  let r1 := record_audio (set_open (fun _ => Some "Invalid sample rate") plain_world)
              60 "take.wav" 44100 1 2048 None 0 s in
  let r2 := record_audio plain_world 60 "take.wav" 44100 1 0 None 0 s in
  (fst r1 = Ok false /\ elements (pa_live (snd r1)) = [0%nat]) /\
  (fst r2 = Ok false /\ map_to_list (streams (snd r2)) = [(0%nat, 0%nat)] /\
   elements (pa_live (snd r2)) = [0%nat]).
Proof. cbv zeta. conjuncts; vm_compute; reflexivity. Qed.

(** On the path that succeeds, both are released. *)
Lemma record_audio_releases_on_success :
  let s := snd (PyAudio boot_state) in
  let r := record_audio plain_world 60 "take.wav" 44100 1 2048 None 0 s in
  fst r = Ok true /\ map_to_list (streams (snd r)) = [] /\ elements (pa_live (snd r)) = [].
Proof. cbv zeta. conjuncts; vm_compute; reflexivity. Qed.


(** ** Upload *)

Section Upload.

Variable W : World.

(** One call of [upload_to_s3]: it returns normally, makes exactly one call
    to the store, and touches the disk only to delete the file after a
    successful upload. *)
Lemma upload_to_s3_run client config file_path file_name s :
  let key := cfg_key_prefix config +:+ isoformat (clock W (ticks s)) +:+ "/" +:+ file_name in
  exists s',
    upload_to_s3 W client config file_path file_name s = (Ok tt, s') /\
    upload_calls s' =
      upload_calls s ++ [mkUploadCall file_path (cfg_bucket_name config) key] /\
    sleeps s' = sleeps s /\
    open_calls s' = open_calls s /\
    match files s !! file_path, upload_outcome W (length (upload_calls s)) with
    | Some f, None =>
        files s' = delete file_path (files s) /\
        bucket s' = <[(cfg_bucket_name config, key) := f]> (bucket s)
    | _, _ => files s' = files s /\ bucket s' = bucket s
    end.
Proof.
  intros key. unfold upload_to_s3. fold key.
  set (s1 := logged W ("Uploading " +:+ file_name +:+ " to S3...") (set_ticks (S (ticks s)) s)).
  assert (Hfiles : files s1 = files s) by reflexivity.
  assert (Hcalls : upload_calls s1 = upload_calls s) by reflexivity.
  destruct (files s !! file_path) as [f |] eqn:Hf.
  - destruct (upload_outcome W (length (upload_calls s))) as [msg |] eqn:Hup.
    + eexists. split.
      * erewrite try_caught; [apply log_message_run |].
        erewrite bind_ok by reflexivity.
        erewrite bind_ok by apply log_message_run. fold s1.
        erewrite bind_raise; [reflexivity |].
        unfold upload_file. rewrite Hfiles, Hcalls, Hf, Hup. reflexivity.
      * cbn. repeat split; reflexivity.
    + eexists. split.
      * erewrite try_ok; [reflexivity |].
        erewrite bind_ok by reflexivity.
        erewrite bind_ok by apply log_message_run. fold s1.
        erewrite bind_ok by (unfold upload_file; rewrite Hfiles, Hcalls, Hf, Hup; reflexivity).
        erewrite bind_ok by apply log_message_run.
        erewrite bind_ok; [apply log_message_run |].
        unfold os_remove.
        match goal with
        | |- context [files ?x !! file_path] => change (files x) with (files s)
        end.
        rewrite Hf. reflexivity.
      * cbn. repeat split; reflexivity.
  - eexists. split.
    + erewrite try_caught; [apply log_message_run |].
      erewrite bind_ok by reflexivity.
      erewrite bind_ok by apply log_message_run. fold s1.
      erewrite bind_raise; [reflexivity |].
      unfold upload_file. rewrite Hfiles, Hf. reflexivity.
    + cbn. repeat split; reflexivity.
Qed.

End Upload.


(** ** One session *)

Section Session.

Variable W : World.

Lemma record_audio_returns d name sr ch cs dev p s :
  exists b, fst (record_audio W d name sr ch cs dev p s) = Ok b.
Proof.
  destruct (open_outcome W (length (open_calls s))) as [msg |] eqn:Hopen.
  { rewrite (record_audio_open_fails W d name sr ch cs dev p s msg Hopen). eexists. reflexivity. }
  destruct (total_chunks_of sr cs d) as [n | e] eqn:Hcount.
  - destruct (record_audio_captures W d name sr ch cs dev p s n Hopen Hcount) as (Hres & _).
    eexists. exact Hres.
  - rewrite (record_audio_count_fails W d name sr ch cs dev p s e Hopen Hcount).
    eexists. reflexivity.
Qed.

(** A session either uploads nothing, or ends with one call of
    [upload_to_s3], entered after the capture with the path and the name
    fixed at the start of the session. *)
Lemma session_shape config client s :
  let filename := "recording_" +:+ strftime_compact (clock W (ticks s)) +:+ ".wav" in
  let r := record_and_upload_session W config client s in
  quiet s (snd r) \/
  exists s2, quiet s s2 /\ (ticks s < ticks s2)%nat /\
    r = upload_to_s3 W client config (path_join (DIR_TEMP_RECORDINGS W) filename) filename s2.
Proof.
  intros filename r. subst r. unfold record_and_upload_session. fold filename.
  erewrite bind_ok by reflexivity.
  erewrite bind_ok by reflexivity.
  set (sb := set_pa (S (pa_next (set_ticks (S (ticks s)) s)))
               ({[pa_next (set_ticks (S (ticks s)) s)]} ∪ pa_live (set_ticks (S (ticks s)) s))
               (set_ticks (S (ticks s)) s)).
  assert (Hsb : quiet s sb /\ (ticks s < ticks sb)%nat).
  { unfold quiet. cbn. repeat split; lia. }
  destruct Hsb as (Hsb & Hlt).
  pose proof (keeps_get_audio_settings W (pa_next (set_ticks (S (ticks s)) s)) sb) as Hset.
  destruct (get_audio_settings W (pa_next (set_ticks (S (ticks s)) s)) sb)
    as [[[[[sr ch] cs] dev] | e] sc] eqn:Hrun; cbn [snd] in Hset.
  - erewrite bind_ok by exact Hrun. cbv beta iota.
    erewrite bind_ok by apply log_message_run.
    match goal with
    | |- context [logged W ?m sc] => set (sd := logged W m sc)
    end.
    assert (Hsd : quiet sc sd) by apply keeps_log_message.
    pose proof (keeps_record_audio W RECORDING_DURATION filename sr ch cs dev
                  (pa_next (set_ticks (S (ticks s)) s)) sd) as Hrec.
    destruct (record_audio_returns RECORDING_DURATION filename sr ch cs dev
                (pa_next (set_ticks (S (ticks s)) s)) sd) as (b & Hb).
    destruct (record_audio W RECORDING_DURATION filename sr ch cs dev
                (pa_next (set_ticks (S (ticks s)) s)) sd) as [res se] eqn:Hra.
    cbn [fst snd] in Hb, Hrec. subst res.
    assert (Hse : quiet s se).
    { eapply quiet_trans; [exact Hsb |]. eapply quiet_trans; [exact Hset |].
      eapply quiet_trans; [exact Hsd | exact Hrec]. }
    erewrite bind_ok by exact Hra.
    destruct b.
    + right. exists se. split; [exact Hse |]. split; [| reflexivity].
      destruct Hset as (_ & _ & _ & _ & H1). destruct Hsd as (_ & _ & _ & _ & H2).
      destruct Hrec as (_ & _ & _ & _ & H3). lia.
    + left. rewrite log_message_run. cbn [snd].
      eapply quiet_trans; [exact Hse | apply keeps_log_message].
  - left. erewrite bind_raise by exact Hrun. cbn [snd].
    eapply quiet_trans; [exact Hsb | exact Hset].
Qed.

(** What one session does to the list of upload calls. *)
Lemma session_uploads config client s :
  let filename := "recording_" +:+ strftime_compact (clock W (ticks s)) +:+ ".wav" in
  let r := record_and_upload_session W config client s in
  upload_calls (snd r) = upload_calls s \/
  (fst r = Ok tt /\ sleeps (snd r) = sleeps s /\
   exists k, (ticks s < k)%nat /\
     upload_calls (snd r) = upload_calls s ++
       [mkUploadCall (path_join (DIR_TEMP_RECORDINGS W) filename) (cfg_bucket_name config)
          (cfg_key_prefix config +:+ isoformat (clock W k) +:+ "/" +:+ filename)]).
Proof.
  intros filename r.
  destruct (session_shape config client s) as [Hq | (s2 & Hq & Hlt & Hr)]; fold r in Hq || fold r in Hr.
  - left. apply Hq.
  - right. fold filename in Hr. fold r in Hr.
    destruct (upload_to_s3_run W client config (path_join (DIR_TEMP_RECORDINGS W) filename)
                filename s2) as (s' & Hrun & Hcalls & Hsl & _).
    rewrite Hr, Hrun. cbn [fst snd].
    destruct Hq as (Hu & _ & Hs & _).
    split; [reflexivity |]. split; [congruence |].
    exists (ticks s2). split; [exact Hlt |]. rewrite Hcalls, Hu. reflexivity.
Qed.

(** What one turn of the main loop does to the list of upload calls: either
    nothing, or one call, after which the turn ends normally and does not
    sleep. *)
Lemma main_iteration_uploads recording_hours config client s :
  let it := main_iteration W recording_hours config client s in
  upload_calls (snd it) = upload_calls s \/
  (fst it = Ok true /\ sleeps (snd it) = sleeps s /\
   exists c, upload_calls (snd it) = upload_calls s ++ [c]).
Proof.
  intros it. subst it. unfold main_iteration.
  erewrite bind_ok by apply is_recording_time_run.
  match goal with
  | |- context [if ?b then _ else _] => destruct b
  end.
  - erewrite bind_ok by apply log_message_run.
    match goal with
    | |- context [record_and_upload_session W config client ?t] => set (s1 := t)
    end.
    assert (H1 : upload_calls s1 = upload_calls s /\ sleeps s1 = sleeps s) by (split; reflexivity).
    destruct H1 as (Hu1 & Hs1).
    destruct (session_uploads config client s1) as [Hsame | (Hok & Hsl & k & _ & Hcalls)].
    + left.
      destruct (record_and_upload_session W config client s1) as [[[] | e] s2];
        cbn [snd] in Hsame; [cbn; congruence |].
      destruct e as [kind msg | c |]; cbn; congruence.
    + right.
      destruct (record_and_upload_session W config client s1) as [res s2].
      cbn [fst snd] in Hok, Hsl, Hcalls. subst res. cbn [fst snd].
      split; [reflexivity |]. split; [congruence |].
      eexists. rewrite Hcalls, Hu1. reflexivity.
  - left. erewrite bind_ok by apply log_message_run. reflexivity.
Qed.

End Session.


(** ** Object key and retention *)




(** C5.  [upload_to_s3] never raises and makes exactly one call to the store.
    When the file is there and the store accepts it, the file is gone from the
    disk afterwards and the object is stored; when the store refuses, the disk
    is as it was, so the file is still there with its content.  A turn of the
    main loop in which an upload was attempted, whatever its outcome, ends
    normally with exactly that one attempt, and without the sleep of the
    handler for unexpected errors. *)
Theorem upload_never_raises_and_retains (W : World) (client : S3Client) (config : Config)
    (file_path file_name : string) (recording_hours : Z * Z) (s s0 : State) :
  let r := upload_to_s3 W client config file_path file_name s in
  let attempt := length (upload_calls s) in
  let it := main_iteration W recording_hours config client s0 in
  fst r = Ok tt /\
  (exists c, upload_calls (snd r) = upload_calls s ++ [c] /\ uc_filename c = file_path) /\
  (forall f, files s !! file_path = Some f -> upload_outcome W attempt = None ->
     files (snd r) !! file_path = None /\
     exists key, bucket (snd r) !! (cfg_bucket_name config, key) = Some f) /\
  (forall msg, upload_outcome W attempt = Some msg ->
     files (snd r) = files s /\ bucket (snd r) = bucket s) /\
  (upload_calls (snd it) <> upload_calls s0 ->
     fst it = Ok true /\ sleeps (snd it) = sleeps s0 /\
     exists c, upload_calls (snd it) = upload_calls s0 ++ [c]).
Proof.
  intros r attempt it.
  destruct (upload_to_s3_run W client config file_path file_name s)
    as (s' & Hrun & Hcalls & _ & _ & Hdisk).
  subst r. rewrite Hrun. cbn [fst snd]. fold attempt in Hdisk.
  split; [reflexivity |].
  split; [eexists; split; [exact Hcalls | reflexivity] |].
  split; [| split].
  - intros f Hf Hup. rewrite Hf, Hup in Hdisk. destruct Hdisk as (Hfiles & Hbucket).
    split.
    + rewrite Hfiles. apply lookup_delete_eq.
    + eexists. rewrite Hbucket. apply lookup_insert_eq.
  - intros msg Hup. rewrite Hup in Hdisk. destruct (files s !! file_path); exact Hdisk.
  - intros Hattempt.
    destruct (main_iteration_uploads W recording_hours config client s0) as [Hsame | Hdone].
    + contradiction.
    + exact Hdone.
Qed.

(** An upload that the store refuses: the session still returns, the
    container stays on the disk, and one call was made. *)
Lemma refused_upload_keeps_file :
  let W := set_upload (fun _ => Some "Connection timed out") plain_world in
  let r := record_and_upload_session W demo_config demo_client boot_state in
  fst r = Ok tt /\ length (upload_calls (snd r)) = 1%nat /\
  size (files (snd r)) = 1%nat /\ size (bucket (snd r)) = 0%nat.
Proof. cbv zeta. conjuncts; vm_compute; reflexivity. Qed.

(** An upload that the store accepts: the file is gone and the object stored. *)
Lemma accepted_upload_removes_file :
  let r := record_and_upload_session plain_world demo_config demo_client boot_state in
  fst r = Ok tt /\ length (upload_calls (snd r)) = 1%nat /\
  size (files (snd r)) = 0%nat /\ size (bucket (snd r)) = 1%nat.
Proof. cbv zeta. conjuncts; vm_compute; reflexivity. Qed.


(** ** Start-up *)

Section Startup.

Variable W : World.

(** A required variable that is not set stops the loop at the line that
    prints it: the concatenation raises before the test for [None] is
    reached, so nothing is logged and [sys.exit] is not called. *)
Lemma get_config_loop_missing keys config s k :
  In k keys -> environ s !! key_name k = None ->
  exists msg s',
    get_config_loop W keys config s = (Raise (PyExc TypeError msg), s') /\
    log s' = log s /\ upload_calls s' = upload_calls s.
Proof.
  revert config s. induction keys as [| env_var rest IH]; intros config s Hin Hmiss.
  - destruct Hin.
  - cbn [get_config_loop].
    erewrite bind_ok by reflexivity.
    destruct (environ s !! key_name env_var) as [v |] eqn:Hv.
    + destruct Hin as [-> | Hin]; [congruence |].
      erewrite bind_ok by reflexivity.
      erewrite bind_ok by reflexivity.
      destruct (IH (config_set env_var v config)
                  (set_console (console s ++ ["Value: " +:+ key_name env_var +:+ v]) s)
                  Hin Hmiss) as (msg & s' & Hrun & Hlog & Hup).
      exists msg, s'. split; [exact Hrun |]. split; [exact Hlog | exact Hup].
    + eexists _, s. split; [| split; reflexivity].
      erewrite bind_raise; reflexivity.
Qed.

Lemma all_keys_listed k : In k config_keys.
Proof. destruct k; cbn; auto. Qed.

End Startup.

(** C9.  When one of the four required variables is set neither in the
    environment nor in the .env file, [main] ends with an uncaught
    [TypeError]: the interpreter exits with status 1 and no upload was
    attempted, but the only line in the log is the start-up banner; the
    message about the missing variable is never written. *)
Theorem missing_setting_is_not_logged (W : World) (fuel : nat) (recording_hours : Z * Z)
    (s : State) (k : ConfigKey) :
  (environ s ∪ dotenv W) !! key_name k = None ->
  let r := main W fuel recording_hours s in
  (exists msg, fst r = Raise (PyExc TypeError msg)) /\
  exit_status (fst r) = 1 /\
  log (snd r) = log (logged W "Pi Audio Recorder started!" s) /\
  upload_calls (snd r) = upload_calls s.
Proof.
  intros Hmiss r. subst r. unfold main, get_config.
  erewrite bind_ok by apply log_message_run.
  set (s1 := set_environ (environ (logged W "Pi Audio Recorder started!" s) ∪ dotenv W)
               (logged W "Pi Audio Recorder started!" s)).
  destruct (get_config_loop_missing W config_keys (mkConfig "" "" "" "") s1 k
              (all_keys_listed k) Hmiss) as (msg & s' & Hrun & Hlog & Hup).
  erewrite bind_raise.
  2: { erewrite bind_ok by reflexivity. fold s1. erewrite bind_raise by exact Hrun. reflexivity. }
  cbn [fst snd exit_status]. repeat split; [eexists; reflexivity | exact Hlog | exact Hup].
Qed.

(** The bucket name is missing, the three other variables are set. *)
Lemma missing_setting_is_not_logged_witness :
  let s := state_with [("AWS_ACCESS_KEY_ID", "AKIAEXAMPLE"); ("AWS_SECRET_ACCESS_KEY", "secret");
                       ("S3_OBJECT_KEY_PREFIX", "prefix/")] in
  let r := main plain_world 1 (9, 18) s in
  (exists msg, fst r = Raise (PyExc TypeError msg)) /\
  exit_status (fst r) = 1 /\
  log (snd r) = log (logged plain_world "Pi Audio Recorder started!" s) /\
  upload_calls (snd r) = upload_calls s.
Proof.
  apply (missing_setting_is_not_logged plain_world 1 (9, 18)
           (state_with [("AWS_ACCESS_KEY_ID", "AKIAEXAMPLE"); ("AWS_SECRET_ACCESS_KEY", "secret");
                        ("S3_OBJECT_KEY_PREFIX", "prefix/")]) S3_BUCKET_NAME).
  vm_compute. reflexivity.
Defined.

(** With the four variables set the configuration loads and the loop starts. *)
Lemma complete_settings_load :
  let s := state_with [("AWS_ACCESS_KEY_ID", "AKIAEXAMPLE"); ("AWS_SECRET_ACCESS_KEY", "secret");
                       ("S3_BUCKET_NAME", "field-audio"); ("S3_OBJECT_KEY_PREFIX", "prefix/")] in
  fst (get_config plain_world s) = Ok demo_config /\
  fst (main plain_world 0 (9, 18) s) = Ok StillLooping.
Proof. cbv zeta. split; vm_compute; reflexivity. Qed.


(** ** Decimal numerals *)













Lemma strip_empty_not_numeral v : numeral (strip v) = true -> v <> "".
Proof. intros H ->. discriminate H. Qed.


Lemma int_of_str_raises_exception v e : int_of_str v = Raise e -> is_Exception e = true.
Proof. unfold int_of_str. destruct (parse_int (strip v)); intros H; inversion H. reflexivity. Qed.

Lemma py_int_raises_exception v e : py_int v = Raise e -> is_Exception e = true.
Proof.
  destruct v as [z | x | t]; cbn [py_int].
  - discriminate.
  - destruct x; cbn [int_of_float]; intros H; inversion H; reflexivity.
  - apply int_of_str_raises_exception.
Qed.


(** ** Resolution of the audio settings *)

Section Settings.

Variable W : World.

Lemma int_from_env_run name dflt s :
  _int_from_env name dflt s = (Ok (env_int s name dflt), s).
Proof.
  unfold _int_from_env, env_int, try_except, bind, os_getenv, ret, lift.
  destruct (environ s !! name) as [[| c v] |]; cbn [default from_option id]; try reflexivity.
  destruct (int_of_str (String c v)) as [z | e] eqn:E; [reflexivity |].
  rewrite (int_of_str_raises_exception _ _ E). reflexivity.
Qed.

Lemma resolve_input_device_index_run p s :
  resolve_input_device_index W p s = (Ok (identified_device W), s).
Proof.
  unfold resolve_input_device_index, identified_device, try_except, bind,
    get_default_input_device_info, getitem, ret, lift, raise.
  destruct (default_input W) as [msg | info]; [reflexivity |].
  destruct (di_index info) as [v |]; [| reflexivity].
  destruct (py_int v) as [i | e] eqn:E; [reflexivity |].
  rewrite (py_int_raises_exception _ _ E). reflexivity.
Qed.

(** The branch taken when the sample-rate override is not used: the rate the
    device reports, or the default; only the log moves. *)
Lemma device_tier_run p s :
  exists s',
    match identified_device W with
    | Some i =>
        try_except
          (let* dev_info := get_device_info_by_index W p i in
           let* _ := log_message W ("Dev info " +:+ di_repr dev_info) in
           let* sr := lift (py_int (default (PyInt DEFAULT_SAMPLE_RATE)
                                      (di_defaultSampleRate dev_info))) in
           let* _ := log_message W ("Using MIC sample rate: " +:+ pretty sr) in
           ret sr)
          (fun _ =>
             let* _ := log_message W "Exception: Using default sample rate" in
             ret DEFAULT_SAMPLE_RATE)
    | None =>
        let* _ := log_message W "Using default sample rate" in
        ret DEFAULT_SAMPLE_RATE
    end s = (Ok (default DEFAULT_SAMPLE_RATE (device_default_rate W)), s') /\
    logs_only s s'.
Proof.
  unfold device_default_rate.
  destruct (identified_device W) as [i |].
  - unfold get_device_info_by_index.
    destruct (device_info W i) as [msg | info].
    + eexists. split.
      * erewrite try_caught by reflexivity.
        erewrite bind_ok by apply log_message_run. reflexivity.
      * apply logged_logs_only.
    + destruct (py_int (default (PyInt DEFAULT_SAMPLE_RATE) (di_defaultSampleRate info)))
        as [z | e] eqn:E.
      * eexists. split.
        -- erewrite try_ok; [reflexivity |].
           erewrite bind_ok by reflexivity.
           erewrite bind_ok by apply log_message_run.
           erewrite bind_ok by (unfold lift; rewrite E; reflexivity).
           erewrite bind_ok by apply log_message_run. reflexivity.
        -- eapply logs_only_trans; apply logged_logs_only.
      * pose proof (py_int_raises_exception _ _ E) as He.
        destruct e as [k msg | |]; try discriminate He.
        eexists. split.
        -- erewrite try_caught.
           2: { erewrite bind_ok by reflexivity.
                erewrite bind_ok by apply log_message_run.
                erewrite bind_raise; [reflexivity |]. unfold lift. rewrite E. reflexivity. }
           erewrite bind_ok by apply log_message_run. reflexivity.
        -- eapply logs_only_trans; apply logged_logs_only.
  - eexists. split.
    + erewrite bind_ok by apply log_message_run. reflexivity.
    + apply logged_logs_only.
Qed.

(** What [get_audio_settings] returns, and what it leaves untouched. *)
Lemma get_audio_settings_run p s :
  let raw := default "" (environ s !! "AUDIO_SAMPLE_RATE") in
  let channels := env_int s "AUDIO_CHANNELS" DEFAULT_CHANNELS in
  let chunk_size := env_int s "AUDIO_CHUNK_SIZE" DEFAULT_CHUNK_SIZE in
  exists s',
    snd (get_audio_settings W p s) = s' /\ logs_only s s' /\
    fst (get_audio_settings W p s) =
      if isdigit (strip raw) then
        match int_of_str (strip raw) with
        | Ok z => Ok (z, channels, chunk_size, identified_device W)
        | Raise e => Raise e
        end
      else Ok (default DEFAULT_SAMPLE_RATE (device_default_rate W), channels, chunk_size,
               identified_device W).
Proof.
  intros raw channels chunk_size. unfold get_audio_settings.
  erewrite bind_ok by apply resolve_input_device_index_run.
  erewrite bind_ok by reflexivity. fold raw.
  destruct (isdigit (strip raw)).
  - destruct (int_of_str (strip raw)) as [z | e] eqn:E.
    + erewrite bind_ok by reflexivity.
      erewrite bind_ok by apply int_from_env_run.
      erewrite bind_ok by apply int_from_env_run.
      eexists. split; [reflexivity |]. split; [apply logs_only_refl | reflexivity].
    + erewrite bind_raise by reflexivity.
      eexists. split; [reflexivity |]. split; [apply logs_only_refl | reflexivity].
  - destruct (device_tier_run p s) as (s1 & Hrun & Hfr).
    erewrite bind_ok by exact Hrun.
    erewrite bind_ok by apply int_from_env_run.
    erewrite bind_ok by apply int_from_env_run.
    eexists. split; [reflexivity |]. split; [exact Hfr |].
    cbn [fst]. unfold channels, chunk_size, env_int.
    destruct Hfr as (Henv & _). rewrite Henv. reflexivity.
Qed.

End Settings.


(** ** Precedence of the settings *)





(** Overrides for all three parameters, no device: the overrides are used. *)
Lemma overrides_are_used :
  fst (get_audio_settings plain_world 0
         (state_with [("AUDIO_SAMPLE_RATE", " 16000 "); ("AUDIO_CHANNELS", "2");
                      ("AUDIO_CHUNK_SIZE", "4096")])) = Ok (16000, 2, 4096, None).
Proof. vm_compute. reflexivity. Qed.

(** No override, a device that reports 48000.0 Hz: the device rate is used. *)
Lemma device_rate_is_used :
  let info := mkDevInfo (Some (PyInt 1))
                (Some (PyFloat (S754_finite false 6597069766656000 (-37)))) "{...}" in
  let W := mkWorld (clock plain_world) ∅ "/home/pi/app/scripts" (inr info) (fun _ => inr info)
             (fun _ => None) (fun _ => inr []) (fun _ => None) in
  fst (get_audio_settings W 0 boot_state) = Ok (48000, 1, 2048, Some 1).
Proof. vm_compute. reflexivity. Qed.

(** No override and no device: the fallbacks. *)
Lemma fallbacks_are_used :
  fst (get_audio_settings plain_world 0 boot_state) = Ok (44100, 1, 2048, None).
Proof. vm_compute. reflexivity. Qed.

(** An override that [isdigit] accepts and [int] rejects (superscript two):
    resolution raises. *)
Lemma superscript_override_raises :
  exists msg,
    fst (get_audio_settings plain_world 0
           (state_with [("AUDIO_SAMPLE_RATE", String (ascii_of_nat 178) "")])) =
    Raise (PyExc ValueError msg).
Proof. eexists. vm_compute. reflexivity. Qed.


(** ** What reaches the capture *)

Section Passing.

Variable W : World.



End Passing.


(** A signed rate, a negative channel count and a chunk size of zero: the
    rate falls back to the default, the two others go to the capture as
    they are. *)
Lemma signed_overrides_in_a_session :
  let s := state_with [("AUDIO_SAMPLE_RATE", "-16000"); ("AUDIO_CHANNELS", "-1");
                       ("AUDIO_CHUNK_SIZE", "0")] in
  fst (get_audio_settings plain_world 0 s) = Ok (44100, -1, 0, None) /\
  open_calls (snd (record_and_upload_session plain_world demo_config demo_client s)) =
    [mkOpenCall paInt16 (-1) 44100 true 0 None].
Proof. cbv zeta. split; vm_compute; reflexivity. Qed.

(** ** Logging *)


(** ** Loading the configuration *)

Lemma get_config_loop_present W (vals : ConfigKey -> string) keys config s :
  (forall k, In k keys -> environ s !! key_name k = Some (vals k)) ->
  get_config_loop W keys config s =
  (Ok (fold_left (fun c k => config_set k (vals k) c) keys config),
   set_console (console s ++ map (value_line vals) keys) s).
Proof.
  revert config s. induction keys as [| k keys IH]; intros config s Hall.
  - cbn. rewrite app_nil_r. destruct s; reflexivity.
  - cbn [get_config_loop].
    erewrite bind_ok by reflexivity.
    rewrite (Hall k (or_introl eq_refl)).
    erewrite bind_ok by reflexivity.
    erewrite bind_ok by reflexivity.
    rewrite IH by (intros k' Hk'; cbn; apply Hall; right; exact Hk').
    cbn. rewrite <- app_assoc. reflexivity.
Qed.

(** X2.  When each of the four variables is set, in the process environment
    or in the .env file, [get_config] returns the four values.  A variable of
    the process environment is not overridden by the .env file.  Afterwards
    the environment is the union of the two; the disk, the sound device, the
    store and the sleeps are untouched. *)
Theorem get_config_loads_environment (W : World) (s : State) (vals : ConfigKey -> string) :
  (forall k, (environ s ∪ dotenv W) !! key_name k = Some (vals k)) ->
  let r := get_config W s in
  fst r = Ok (mkConfig (vals AWS_ACCESS_KEY_ID) (vals AWS_SECRET_ACCESS_KEY)
                (vals S3_BUCKET_NAME) (vals S3_OBJECT_KEY_PREFIX)) /\
  (forall k v, environ s !! key_name k = Some v -> vals k = v) /\
  (forall k v, environ s !! key_name k = None -> dotenv W !! key_name k = Some v ->
               vals k = v) /\
  environ (snd r) = environ s ∪ dotenv W /\
  logs_only (set_environ (environ s ∪ dotenv W) s) (snd r).
Proof.
  intros Hall r. subst r. unfold get_config.
  erewrite bind_ok by reflexivity.
  erewrite bind_ok by (apply (get_config_loop_present W vals); intros k _; apply Hall).
  erewrite bind_ok by apply log_message_run.
  split; [reflexivity |].
  split.
  { intros k v Hk. pose proof (Hall k) as H.
    rewrite (lookup_union_Some_l _ _ _ _ Hk) in H. congruence. }
  split.
  { intros k v Hk Hd. pose proof (Hall k) as H.
    rewrite lookup_union_r in H by exact Hk. congruence. }
  split; [reflexivity |].
  unfold logs_only. cbn. conjuncts; try reflexivity. lia.
Qed.

(** The bucket and the prefix come from the .env file, the two keys from the
    process environment, which also wins for the bucket. *)
Lemma get_config_loads_environment_witness :
  let W := mkWorld (clock plain_world)
             (list_to_map [("S3_BUCKET_NAME", "from-dotenv"); ("S3_OBJECT_KEY_PREFIX", "prefix/")])
             "/home/pi/app/scripts" (default_input plain_world) (device_info plain_world)
             (open_outcome plain_world) (read_outcome plain_world)
             (upload_outcome plain_world) in
  let s := state_with [("AWS_ACCESS_KEY_ID", "AKIAEXAMPLE"); ("AWS_SECRET_ACCESS_KEY", "secret");
                       ("S3_BUCKET_NAME", "field-audio")] in
  let r := get_config W s in
  fst r = Ok (mkConfig "AKIAEXAMPLE" "secret" "field-audio" "prefix/") /\
  (forall k v, environ s !! key_name k = Some v -> config_get demo_config k = v) /\
  (forall k v, environ s !! key_name k = None -> dotenv W !! key_name k = Some v ->
               config_get demo_config k = v) /\
  environ (snd r) = environ s ∪ dotenv W /\
  logs_only (set_environ (environ s ∪ dotenv W) s) (snd r).
Proof.
  apply (get_config_loads_environment
           (mkWorld (clock plain_world)
             (list_to_map [("S3_BUCKET_NAME", "from-dotenv"); ("S3_OBJECT_KEY_PREFIX", "prefix/")])
             "/home/pi/app/scripts" (default_input plain_world) (device_info plain_world)
             (open_outcome plain_world) (read_outcome plain_world)
             (upload_outcome plain_world))
           (state_with [("AWS_ACCESS_KEY_ID", "AKIAEXAMPLE"); ("AWS_SECRET_ACCESS_KEY", "secret");
                        ("S3_BUCKET_NAME", "field-audio")])
           (config_get demo_config)).
  intros []; vm_compute; reflexivity.
Defined.

(** X3.  While it loads the configuration the script prints every value it
    reads, the secret access key included: once the configuration has loaded,
    the line made of the variable's name and the secret is on the console. *)
Theorem get_config_prints_secret (W : World) (s : State) (vals : ConfigKey -> string) :
  (forall k, (environ s ∪ dotenv W) !! key_name k = Some (vals k)) ->
  In ("Value: AWS_SECRET_ACCESS_KEY" +:+ vals AWS_SECRET_ACCESS_KEY)
     (console (snd (get_config W s))).
Proof.
  intros Hall. unfold get_config.
  erewrite bind_ok by reflexivity.
  erewrite bind_ok by (apply (get_config_loop_present W vals); intros k _; apply Hall).
  erewrite bind_ok by apply log_message_run.
  cbn. apply in_or_app. left. apply in_or_app. right. right. left. reflexivity.
Qed.

Lemma get_config_prints_secret_witness :
  In ("Value: AWS_SECRET_ACCESS_KEY" +:+ "secret")
     (console (snd (get_config plain_world
        (state_with [("AWS_ACCESS_KEY_ID", "AKIAEXAMPLE"); ("AWS_SECRET_ACCESS_KEY", "secret");
                     ("S3_BUCKET_NAME", "field-audio"); ("S3_OBJECT_KEY_PREFIX", "prefix/")])))).
Proof.
  apply (get_config_prints_secret plain_world
           (state_with [("AWS_ACCESS_KEY_ID", "AKIAEXAMPLE"); ("AWS_SECRET_ACCESS_KEY", "secret");
                        ("S3_BUCKET_NAME", "field-audio"); ("S3_OBJECT_KEY_PREFIX", "prefix/")])
           (config_get demo_config)).
  intros []; vm_compute; reflexivity.
Defined.

(** ** The window, again *)

Lemma time_le_hours a b : time_le a b = true -> t_hour a <= t_hour b.
Proof.
  unfold time_le, time_cmp.
  destruct (Z.compare_spec (t_hour a) (t_hour b)); intros Hle;
    [lia | lia | discriminate Hle].
Qed.

(** X4.  A window whose end hour, after clamping, lies before its start hour
    is never open: the test has no notion of a window that crosses midnight,
    so with the hours (22, 6) the script would never record. *)
Theorem inverted_window_is_never_open (W : World) (recording_hours : Z * Z) (s : State) :
  clamp_hour (snd recording_hours) < clamp_hour (fst recording_hours) ->
  fst (is_recording_time W recording_hours s) = Ok false.
Proof.
  intros Hinv. rewrite is_recording_time_run. cbn [fst]. f_equal.
  apply not_true_is_false. intros H. apply andb_true_iff in H as [H1 H2].
  apply time_le_hours in H1, H2. cbn [t_hour] in H1, H2. lia.
Qed.

Lemma inverted_window_is_never_open_witness :
  fst (is_recording_time (with_clock (fun _ => at_time 23 30 0 0) plain_world) (22, 6)
         boot_state) = Ok false.
Proof.
  apply (inverted_window_is_never_open
           (with_clock (fun _ => at_time 23 30 0 0) plain_world) (22, 6) boot_state).
  vm_compute. reflexivity.
Defined.

(** X5.  With the hours the script ships with, [RECORDING_HOURS = (0, 23)],
    the window is open from midnight to 23:00:00 sharp: during the last hour
    of the day, from the first microsecond after 23:00:00, the script does
    not record. *)
Theorem shipped_window_closes_at_23 (W : World) (s : State) :
  let now := clock W (ticks s) in
  0 <= hour now -> 0 <= minute now -> 0 <= second now -> 0 <= microsecond now ->
  fst (is_recording_time W RECORDING_HOURS s) = Ok true <->
  hour now < 23 \/ (hour now = 23 /\ minute now = 0 /\ second now = 0 /\ microsecond now = 0).
Proof.
  intros now Hh Hm Hs Hus. rewrite is_recording_time_run. cbn [fst].
  change (clamp_hour (fst RECORDING_HOURS)) with 0.
  change (clamp_hour (snd RECORDING_HOURS)) with 23.
  pose proof (time_le_from_hour 0 (dt_time_of now) Hm Hs Hus) as Hlo.
  pose proof (time_le_to_hour 23 (dt_time_of now) Hm Hs Hus) as Hhi.
  cbn [dt_time_of t_hour t_minute t_second t_microsecond] in Hlo, Hhi.
  fold now. split.
  - intros H. injection H as H. apply andb_true_iff in H as [_ H2]. apply Hhi, H2.
  - intros H. f_equal. apply andb_true_iff. split; [apply Hlo, Hh | apply Hhi, H].
Qed.

Lemma shipped_window_closes_at_23_witness :
  fst (is_recording_time (with_clock (fun _ => at_time 23 0 0 1) plain_world)
         RECORDING_HOURS boot_state) = Ok true <->
  23 < 23 \/ (23 = 23 /\ 0 = 0 /\ 0 = 0 /\ 1 = 0).
Proof.
  apply (shipped_window_closes_at_23 (with_clock (fun _ => at_time 23 0 0 1) plain_world)
           boot_state); vm_compute; discriminate.
Defined.

(** ** Settings, again *)


(** X7.  [resolve_input_device_index] never raises and changes nothing.  It
    returns [None] when there is no default input device and when the
    device's information has no index or one that [int] rejects; otherwise
    it returns the index as [int] reads it. *)
Theorem resolve_input_device_index_total (W : World) (p : nat) (s : State) :
  exists d, resolve_input_device_index W p s = (Ok d, s) /\
    (forall msg, default_input W = inl msg -> d = None) /\
    (forall info, default_input W = inr info -> di_index info = None -> d = None) /\
    (forall info v e, default_input W = inr info -> di_index info = Some v ->
                      py_int v = Raise e -> d = None) /\
    (forall info v i, default_input W = inr info -> di_index info = Some v ->
                      py_int v = Ok i -> d = Some i).
Proof.
  exists (identified_device W). split; [apply resolve_input_device_index_run |].
  unfold identified_device.
  destruct (default_input W) as [msg | info].
  - conjuncts; try reflexivity; discriminate.
  - conjuncts; try discriminate.
    + intros info' Hi Hn. injection Hi as <-. rewrite Hn. reflexivity.
    + intros info' v e Hi Hv He. injection Hi as <-. rewrite Hv, He. reflexivity.
    + intros info' v i Hi Hv Hok. injection Hi as <-. rewrite Hv, Hok. reflexivity.
Qed.




(** ** The capture, again *)


(** X10.  Once the stream is open and the chunk count computed, the stream
    and the PyAudio instance are released before the container is written:
    whether or not the container can be written afterwards, the instance is
    no longer live and none of its streams is left open. *)
Theorem record_audio_releases_after_capture (W : World) (d : Z) (name : string)
    (sr ch cs : Z) (dev : option Z) (p : nat) (s : State) (n : Z) :
  open_outcome W (length (open_calls s)) = None ->
  total_chunks_of sr cs d = Ok n ->
  let r := record_audio W d name sr ch cs dev p s in
  (p ∉ pa_live (snd r)) /\
  streams (snd r) !! stream_next s = None /\
  (forall st q, streams (snd r) !! st = Some q -> q <> p).
Proof.
  intros Hopen Hcount r.
  destruct (record_audio_captures W d name sr ch cs dev p s n Hopen Hcount)
    as (_ & _ & Hst & Hpa & _).
  fold r in Hst, Hpa. rewrite Hst, Hpa.
  split; [apply not_elem_of_difference; right; apply elem_of_singleton; reflexivity |].
  split.
  - apply map_lookup_filter_None. left. apply lookup_delete_eq.
  - intros st q Hq. apply map_lookup_filter_Some in Hq as [_ Hq]. exact Hq.
Qed.

(** Channels set to -1: the capture runs, the container is refused, and the
    instance and the stream are released all the same. *)
Lemma record_audio_releases_after_capture_witness :
  let s := snd (PyAudio boot_state) in
  let r := record_audio plain_world 60 "take.wav" 44100 (-1) 2048 None 0 s in
  (0%nat ∉ pa_live (snd r)) /\
  streams (snd r) !! stream_next s = None /\
  (forall st q, streams (snd r) !! st = Some q -> q <> 0%nat).
Proof.
  apply (record_audio_releases_after_capture plain_world 60 "take.wav" 44100 (-1) 2048 None
           0%nat (snd (PyAudio boot_state)) 1291); vm_compute; reflexivity.
Defined.

(** X11.  When the stream cannot be opened, [record_audio] returns [False]
    having released nothing: the PyAudio instance it was given is still
    live, no read was made and no file was written. *)
Theorem record_audio_open_failure_releases_nothing (W : World) (d : Z) (name : string)
    (sr ch cs : Z) (dev : option Z) (p : nat) (s : State) (msg : string) :
  open_outcome W (length (open_calls s)) = Some msg ->
  let r := record_audio W d name sr ch cs dev p s in
  fst r = Ok false /\
  pa_live (snd r) = pa_live s /\ streams (snd r) = streams s /\
  reads (snd r) = reads s /\ files (snd r) = files s /\
  exists file stamp,
    log (snd r) = log s ++ [(file, "[" +:+ stamp +:+ "] [ERROR] Recording failed: " +:+ msg +:+ nl)].
Proof.
  intros Hopen r. subst r.
  rewrite (record_audio_open_fails W d name sr ch cs dev p s msg Hopen).
  cbn [fst snd]. conjuncts; try reflexivity.
  destruct (logged_log W ("[ERROR] Recording failed: " +:+ msg)
              (set_open_calls (open_calls s ++ [mkOpenCall FORMAT ch sr true cs dev]) s))
    as (file & stamp & Hlog).
  exists file, stamp. exact Hlog.
Qed.

Lemma record_audio_open_failure_releases_nothing_witness :
  let W := set_open (fun _ => Some "Invalid sample rate") plain_world in
  let s := snd (PyAudio boot_state) in
  let r := record_audio W 60 "take.wav" 44100 1 2048 None 0 s in
  fst r = Ok false /\
  pa_live (snd r) = pa_live s /\ streams (snd r) = streams s /\
  reads (snd r) = reads s /\ files (snd r) = files s /\
  exists file stamp,
    log (snd r) =
    log s ++ [(file, "[" +:+ stamp +:+ "] [ERROR] Recording failed: " +:+ "Invalid sample rate" +:+ nl)].
Proof.
  apply (record_audio_open_failure_releases_nothing
           (set_open (fun _ => Some "Invalid sample rate") plain_world)
           60 "take.wav" 44100 1 2048 None 0%nat (snd (PyAudio boot_state))
           "Invalid sample rate").
  reflexivity.
Defined.

(** X12.  A chunk size of zero: the stream is opened, the division raises,
    and [record_audio] returns [False] with the stream still open and the
    instance still live; no read was made and no file was written. *)
Theorem zero_chunk_size_leaves_stream_open (W : World) (d : Z) (name : string)
    (sr ch : Z) (dev : option Z) (p : nat) (s : State) :
  open_outcome W (length (open_calls s)) = None ->
  let r := record_audio W d name sr ch 0 dev p s in
  fst r = Ok false /\
  streams (snd r) !! stream_next s = Some p /\
  pa_live (snd r) = pa_live s /\
  reads (snd r) = reads s /\ files (snd r) = files s.
Proof.
  intros Hopen r. subst r.
  rewrite (record_audio_count_fails W d name sr ch 0 dev p s
             (PyExc ZeroDivisionError "division by zero") Hopen eq_refl).
  cbn [fst snd]. conjuncts; try reflexivity.
  cbn. apply lookup_insert_eq.
Qed.

Lemma zero_chunk_size_leaves_stream_open_witness :
  let s := snd (PyAudio boot_state) in
  let r := record_audio plain_world 60 "take.wav" 44100 1 0 None 0 s in
  fst r = Ok false /\
  streams (snd r) !! stream_next s = Some 0%nat /\
  pa_live (snd r) = pa_live s /\
  reads (snd r) = reads s /\ files (snd r) = files s.
Proof.
  apply (zero_chunk_size_leaves_stream_open plain_world 60 "take.wav" 44100 1 None 0%nat
           (snd (PyAudio boot_state))).
  reflexivity.
Defined.

(** X13.  Parameters the container refuses, fewer than one channel or a rate
    below one: the capture runs for its whole length all the same, every
    read is made, and only then does [record_audio] fail.  It returns
    [False] and leaves an empty file under the output name. *)
Theorem refused_parameters_fail_after_capture (W : World) (d : Z) (name : string)
    (sr ch cs : Z) (dev : option Z) (p : nat) (s : State) (n : Z) :
  open_outcome W (length (open_calls s)) = None ->
  total_chunks_of sr cs d = Ok n ->
  ch < 1 \/ sr < 1 ->
  let r := record_audio W d name sr ch cs dev p s in
  fst r = Ok false /\
  reads (snd r) = (reads s + Z.to_nat n)%nat /\
  files (snd r) !! path_join (DIR_TEMP_RECORDINGS W) name = Some (Plain []).
Proof.
  intros Hopen Hcount Hbad r.
  destruct (record_audio_captures W d name sr ch cs dev p s n Hopen Hcount)
    as (Hres & Hfiles & _ & _ & _ & Hreads & _).
  fold r in Hres, Hfiles, Hreads.
  assert (Hparams : (1 <=? ch) && (1 <=? sr) = false).
  { apply andb_false_iff. destruct Hbad; [left | right]; apply Z.leb_gt; assumption. }
  rewrite Hparams in Hres, Hfiles.
  split; [exact Hres |]. split; [exact Hreads |].
  rewrite Hfiles. apply lookup_insert_eq.
Qed.

Lemma refused_parameters_fail_after_capture_witness :
  let r := record_audio plain_world 60 "take.wav" 44100 (-1) 2048 None 0 boot_state in
  fst r = Ok false /\
  reads (snd r) = (reads boot_state + Z.to_nat 1291)%nat /\
  files (snd r) !! path_join (DIR_TEMP_RECORDINGS plain_world) "take.wav" = Some (Plain []).
Proof.
  apply (refused_parameters_fail_after_capture plain_world 60 "take.wav" 44100 (-1) 2048 None
           0%nat boot_state 1291); [reflexivity | vm_compute; reflexivity | left; lia].
Defined.



(** ** Upload and session, again *)

(** X15.  [upload_to_s3] touches no file but the one it uploads: every other
    path of the disk is as before, and the file itself is removed only
    after a successful upload.  When the file is not there, the error is
    caught like any other: the call returns, and disk and store are as
    they were. *)
Theorem upload_to_s3_touches_only_its_file (W : World) (client : S3Client) (config : Config)
    (file_path file_name : string) (s : State) :
  let r := upload_to_s3 W client config file_path file_name s in
  (forall path, path <> file_path -> files (snd r) !! path = files s !! path) /\
  (files (snd r) !! file_path <> files s !! file_path ->
     upload_outcome W (length (upload_calls s)) = None) /\
  (files s !! file_path = None ->
     fst r = Ok tt /\ files (snd r) = files s /\ bucket (snd r) = bucket s).
Proof.
  intros r. subst r.
  destruct (upload_to_s3_run W client config file_path file_name s)
    as (s' & Hrun & _ & _ & _ & Hdisk).
  rewrite Hrun. cbn [fst snd].
  destruct (files s !! file_path) as [f |] eqn:Hf.
  - destruct (upload_outcome W (length (upload_calls s))) as [msg |].
    + destruct Hdisk as (Hfiles & _). rewrite Hfiles, Hf.
      split; [reflexivity |]. split; [congruence | discriminate].
    + destruct Hdisk as (Hfiles & _). rewrite Hfiles.
      split; [intros path Hne; apply lookup_delete_ne; congruence |].
      split; [reflexivity | discriminate].
  - assert (Hsame : files s' = files s /\ bucket s' = bucket s).
    { destruct (upload_outcome W (length (upload_calls s))); exact Hdisk. }
    destruct Hsame as (Hfiles & Hbucket). rewrite Hfiles, Hf.
    split; [reflexivity |]. split; [congruence |].
    intros _. split; [reflexivity |]. split; [reflexivity | exact Hbucket].
Qed.

(** The course of one session: the settings raise, or the capture runs and
    the session ends with the upload or with the line about the failure. *)
Lemma session_cases W config client s :
  let filename := "recording_" +:+ strftime_compact (clock W (ticks s)) +:+ ".wav" in
  let r := record_and_upload_session W config client s in
  (exists e s1, get_audio_settings W (pa_next s) (session_entry W s) = (Raise e, s1) /\
                r = (Raise e, s1)) \/
  (exists sr ch cs dev sc m,
     get_audio_settings W (pa_next s) (session_entry W s) = (Ok (sr, ch, cs, dev), sc) /\
     let ra := record_audio W RECORDING_DURATION filename sr ch cs dev (pa_next s)
                 (logged W m sc) in
     (fst ra = Ok true /\
      r = upload_to_s3 W client config (path_join (DIR_TEMP_RECORDINGS W) filename) filename
            (snd ra)) \/
     (fst ra = Ok false /\
      r = (Ok tt, logged W "Recording session failed, skipping upload" (snd ra)))).
Proof.
  intros filename r. subst r. unfold record_and_upload_session. fold filename.
  erewrite bind_ok by reflexivity.
  erewrite bind_ok by reflexivity.
  change (set_pa (S (pa_next (set_ticks (S (ticks s)) s)))
            ({[pa_next (set_ticks (S (ticks s)) s)]} ∪ pa_live (set_ticks (S (ticks s)) s))
            (set_ticks (S (ticks s)) s)) with (session_entry W s).
  change (pa_next (set_ticks (S (ticks s)) s)) with (pa_next s).
  destruct (get_audio_settings W (pa_next s) (session_entry W s))
    as [[[[[sr ch] cs] dev] | e] sc] eqn:Hrun.
  - right. exists sr, ch, cs, dev, sc.
    erewrite bind_ok by exact Hrun. cbv beta iota.
    erewrite bind_ok by apply log_message_run.
    match goal with
    | |- context [logged W ?m sc] => exists m; set (sd := logged W m sc)
    end.
    split; [reflexivity |]. cbv zeta.
    destruct (record_audio_returns W RECORDING_DURATION filename sr ch cs dev (pa_next s) sd)
      as (b & Hb).
    destruct (record_audio W RECORDING_DURATION filename sr ch cs dev (pa_next s) sd)
      as [res se] eqn:Hra.
    cbn [fst snd] in Hb |- *. subst res.
    erewrite bind_ok by exact Hra.
    destruct b; [left | right]; (split; [reflexivity |]).
    + reflexivity.
    + apply log_message_run.
  - left. exists e, sc. split; [reflexivity |].
    erewrite bind_raise by exact Hrun. reflexivity.
Qed.

Lemma session_entry_logs_only W s sc :
  logs_only (session_entry W s) sc ->
  open_calls sc = open_calls s /\ upload_calls sc = upload_calls s /\
  files sc = files s /\ bucket sc = bucket s /\ sleeps sc = sleeps s /\
  pa_live sc = {[pa_next s]} ∪ pa_live s /\ streams sc = streams s.
Proof.
  intros (_ & Hf & _ & Hpa & _ & Hst & Hoc & Hup & Hb & Hsl & _).
  conjuncts; assumption.
Qed.

Lemma settings_logs_only W p s : logs_only s (snd (get_audio_settings W p s)).
Proof.
  destruct (get_audio_settings_run W p s) as (s' & Hsnd & Hfr & _).
  rewrite Hsnd. exact Hfr.
Qed.

(** X16.  A session whose stream cannot be opened uploads nothing and leaves
    the disk and the store as they were; it returns normally unless the
    settings raised.  The PyAudio instance it created is never terminated:
    it is still live when the session ends. *)
Theorem failed_session_uploads_nothing (W : World) (config : Config) (client : S3Client)
    (s : State) (msg : string) :
  open_outcome W (length (open_calls s)) = Some msg ->
  let r := record_and_upload_session W config client s in
  upload_calls (snd r) = upload_calls s /\
  files (snd r) = files s /\ bucket (snd r) = bucket s /\
  (pa_next s ∈ pa_live (snd r)) /\
  match fst (get_audio_settings W (pa_next s) (session_entry W s)) with
  | Ok _ => fst r = Ok tt
  | Raise e => fst r = Raise e
  end.
Proof.
  intros Hopen r.
  destruct (session_cases W config client s)
    as [(e & s1 & Hset & Hr) | (sr & ch & cs & dev & sc & m & Hset & Hcases)]; fold r in Hr || idtac.
  - pose proof (settings_logs_only W (pa_next s) (session_entry W s)) as Hfr.
    rewrite Hset in Hfr. cbn [snd] in Hfr.
    apply session_entry_logs_only in Hfr as (_ & Hup & Hf & Hb & _ & Hpa & _).
    rewrite Hr, Hset. cbn [fst snd]. rewrite Hpa.
    conjuncts; try assumption; [| reflexivity].
    apply elem_of_union_l, elem_of_singleton. reflexivity.
  - pose proof (settings_logs_only W (pa_next s) (session_entry W s)) as Hfr.
    rewrite Hset in Hfr. cbn [snd] in Hfr.
    apply session_entry_logs_only in Hfr as (Hoc & Hup & Hf & Hb & _ & Hpa & _).
    cbv zeta in Hcases. fold r in Hcases.
    set (sd := logged W m sc) in *.
    assert (Hopen' : open_outcome W (length (open_calls sd)) = Some msg).
    { change (open_calls sd) with (open_calls sc). rewrite Hoc. exact Hopen. }
    rewrite (record_audio_open_fails W RECORDING_DURATION _ sr ch cs dev (pa_next s) sd msg Hopen')
      in Hcases.
    cbn [fst snd] in Hcases.
    destruct Hcases as [(Hbad & _) | (_ & Hr)]; [discriminate Hbad |].
    rewrite Hr. cbn [fst snd].
    change (upload_calls (logged W _ (logged W _ (set_open_calls _ sd)))) with (upload_calls sc).
    change (files (logged W _ (logged W _ (set_open_calls _ sd)))) with (files sc).
    change (bucket (logged W _ (logged W _ (set_open_calls _ sd)))) with (bucket sc).
    change (pa_live (logged W _ (logged W _ (set_open_calls _ sd)))) with (pa_live sc).
    rewrite Hpa, Hset. cbn [fst]. conjuncts; try assumption; [| reflexivity].
    apply elem_of_union_l, elem_of_singleton. reflexivity.
Qed.

Lemma failed_session_uploads_nothing_witness :
  let W := set_open (fun _ => Some "Invalid sample rate") plain_world in
  let r := record_and_upload_session W demo_config demo_client boot_state in
  upload_calls (snd r) = upload_calls boot_state /\
  files (snd r) = files boot_state /\ bucket (snd r) = bucket boot_state /\
  (pa_next boot_state ∈ pa_live (snd r)) /\
  match fst (get_audio_settings W (pa_next boot_state) (session_entry W boot_state)) with
  | Ok _ => fst r = Ok tt
  | Raise e => fst r = Raise e
  end.
Proof.
  apply (failed_session_uploads_nothing
           (set_open (fun _ => Some "Invalid sample rate") plain_world)
           demo_config demo_client boot_state "Invalid sample rate").
  reflexivity.
Defined.

(** ** Digits that are no decimal digits *)










(** ** The main loop *)




(** X17.  A turn of the loop outside the window logs it and sleeps for five
    minutes: 300 is appended to the sleeps.  No PyAudio instance is created,
    no stream opened, nothing uploaded, no file touched, and the loop goes
    on. *)
Theorem idle_turn_sleeps_five_minutes (W : World) (recording_hours : Z * Z)
    (config : Config) (client : S3Client) (s : State) :
  fst (is_recording_time W recording_hours s) = Ok false ->
  let it := main_iteration W recording_hours config client s in
  fst it = Ok true /\
  sleeps (snd it) = sleeps s ++ [300] /\
  pa_next (snd it) = pa_next s /\ open_calls (snd it) = open_calls s /\
  upload_calls (snd it) = upload_calls s /\ files (snd it) = files s /\
  exists file stamp,
    log (snd it) = log s ++ [(file, "[" +:+ stamp +:+ "] Outside recording hours, sleeping..." +:+ nl)].
Proof.
  intros Hout it. subst it. unfold main_iteration.
  rewrite is_recording_time_run in Hout. cbn [fst] in Hout. injection Hout as Hout.
  erewrite bind_ok by apply is_recording_time_run. rewrite Hout.
  erewrite bind_ok by apply log_message_run. cbn.
  conjuncts; try reflexivity. eexists _, _. reflexivity.
Qed.

Lemma idle_turn_sleeps_five_minutes_witness :
  let W := with_clock (fun _ => at_time 18 30 0 0) plain_world in
  let it := main_iteration W (9, 18) demo_config demo_client boot_state in
  fst it = Ok true /\
  sleeps (snd it) = sleeps boot_state ++ [300] /\
  pa_next (snd it) = pa_next boot_state /\ open_calls (snd it) = open_calls boot_state /\
  upload_calls (snd it) = upload_calls boot_state /\ files (snd it) = files boot_state /\
  exists file stamp,
    log (snd it) =
    log boot_state ++ [(file, "[" +:+ stamp +:+ "] Outside recording hours, sleeping..." +:+ nl)].
Proof.
  apply (idle_turn_sleeps_five_minutes (with_clock (fun _ => at_time 18 30 0 0) plain_world)
           (9, 18) demo_config demo_client boot_state).
  reflexivity.
Defined.








(** ** The test script *)

Lemma try_finally_terminate {A} (body : M A) p s :
  try_finally body (terminate p) s = (fst (body s), snd (terminate p (snd (body s)))).
Proof. unfold try_finally. destruct (body s) as [r s1]. reflexivity. Qed.

Lemma first_failure_none_captured W start n :
  first_failure W start n = None ->
  length (captured W start n) = n /\ failed W start n = 0%nat.
Proof.
  revert start. induction n as [| n IH]; intros start H; [split; reflexivity |].
  cbn [first_failure] in H. rewrite captured_step, failed_step. unfold read_ok.
  destruct (read_outcome W start) as [msg | data]; [discriminate H |].
  destruct (first_failure W (S start) n) as [[i msg] |] eqn:Hff; [discriminate H |].
  destruct (IH (S start) Hff) as (Hlen & Hfail).
  split; [cbn [length]; rewrite Hlen; reflexivity | exact Hfail].
Qed.

Lemma read_all_run W n st frames s :
  pi_test_recording.read_all W n st frames s =
  match first_failure W (reads s) n with
  | None => (Ok (frames ++ captured W (reads s) n), set_reads (reads s + n) s)
  | Some (i, msg) => (Raise (PyExc OSError msg), set_reads (reads s + S i) s)
  end.
Proof.
  revert frames s. induction n as [| n IH]; intros frames s.
  - cbn. rewrite app_nil_r, Nat.add_0_r. destruct s; reflexivity.
  - cbn [pi_test_recording.read_all first_failure]. rewrite captured_step. unfold read_ok.
    unfold bind at 1. unfold stream_read at 1.
    destruct (read_outcome W (reads s)) as [msg | data].
    + rewrite Nat.add_1_r. reflexivity.
    + rewrite IH. cbn [reads set_reads].
      destruct (first_failure W (S (reads s)) n) as [[i msg] |].
      * rewrite <- !Nat.add_succ_comm. reflexivity.
      * rewrite <- app_assoc, <- Nat.add_succ_comm. reflexivity.
Qed.

Section TestRecording.

Variable W : World.
Variables (d : Z) (s : State).

Let p := pa_next s.
Let line1 := "Testing recording for " +:+ pretty d +:+ " seconds...".
Let started := "Recording started... (speak into microphone)".
Let call := mkOpenCall paInt16 1 44100 true 1024 None.

(** The stream cannot be opened. *)
Lemma test_recording_open_fails msg :
  open_outcome W (length (open_calls s)) = Some msg ->
  exists sb,
    pi_test_recording.test_recording W d s = (Ok false, snd (terminate p sb)) /\
    open_calls sb = open_calls s ++ [call] /\
    reads sb = reads s /\ files sb = files s /\ streams sb = streams s /\
    pa_live sb = {[p]} ∪ pa_live s /\
    console sb = console s ++ [line1; "Recording test failed: " +:+ msg].
Proof.
  intros Hopen. unfold pi_test_recording.test_recording.
  erewrite bind_ok by reflexivity.
  erewrite bind_ok by reflexivity.
  rewrite try_finally_terminate.
  match goal with
  | |- context [try_except ?body ?handler ?st] =>
      assert (Hbody : exists sb, try_except body handler st = (Ok false, sb) /\
                open_calls sb = open_calls s ++ [call] /\
                reads sb = reads s /\ files sb = files s /\ streams sb = streams s /\
                pa_live sb = {[p]} ∪ pa_live s /\
                console sb = console s ++ [line1; "Recording test failed: " +:+ msg])
  end.
  { eexists. split.
    - erewrite try_caught; [reflexivity |].
      erewrite bind_raise; [reflexivity |].
      unfold pa_open. cbn [open_calls set_pa set_console]. rewrite Hopen. reflexivity.
    - cbn. rewrite <- app_assoc. conjuncts; reflexivity. }
  destruct Hbody as (sb & Hrun & Hfacts). rewrite Hrun. cbn [fst snd].
  exists sb. split; [reflexivity | exact Hfacts].
Qed.

(** The chunk count cannot be computed. *)
Lemma test_recording_count_fails e :
  open_outcome W (length (open_calls s)) = None ->
  total_chunks_of pi_test_recording.SAMPLE_RATE pi_test_recording.CHUNK_SIZE d = Raise e ->
  exists sb,
    pi_test_recording.test_recording W d s = (Ok false, snd (terminate p sb)) /\
    open_calls sb = open_calls s ++ [call] /\
    reads sb = reads s /\ files sb = files s /\
    console sb = console s ++ [line1; started; "Recording test failed: " +:+ exn_str e].
Proof.
  intros Hopen Hcount.
  destruct (total_chunks_raises_exception _ _ _ _ Hcount) as (k & msg & ->).
  unfold pi_test_recording.test_recording.
  erewrite bind_ok by reflexivity.
  erewrite bind_ok by reflexivity.
  rewrite try_finally_terminate.
  match goal with
  | |- context [try_except ?body ?handler ?st] =>
      assert (Hbody : exists sb, try_except body handler st = (Ok false, sb) /\
                open_calls sb = open_calls s ++ [call] /\
                reads sb = reads s /\ files sb = files s /\
                console sb = console s ++ [line1; started;
                                           "Recording test failed: " +:+ exn_str (PyExc k msg)])
  end.
  { eexists. split.
    - erewrite try_caught; [reflexivity |].
      erewrite bind_ok
        by (unfold pa_open; cbn [open_calls set_pa set_console]; rewrite Hopen; reflexivity).
      erewrite bind_ok by reflexivity.
      erewrite bind_raise; [reflexivity |].
      unfold lift. rewrite Hcount. reflexivity.
    - cbn. rewrite <- !app_assoc. conjuncts; reflexivity. }
  destruct Hbody as (sb & Hrun & Hfacts). rewrite Hrun. cbn [fst snd].
  exists sb. split; [reflexivity | exact Hfacts].
Qed.

(** A read fails. *)
Lemma test_recording_read_fails n i msg :
  open_outcome W (length (open_calls s)) = None ->
  total_chunks_of pi_test_recording.SAMPLE_RATE pi_test_recording.CHUNK_SIZE d = Ok n ->
  first_failure W (reads s) (Z.to_nat n) = Some (i, msg) ->
  exists sb,
    pi_test_recording.test_recording W d s = (Ok false, snd (terminate p sb)) /\
    open_calls sb = open_calls s ++ [call] /\
    reads sb = (reads s + S i)%nat /\ files sb = files s /\
    console sb = console s ++ [line1; started; "Recording test failed: " +:+ msg].
Proof.
  intros Hopen Hcount Hfail.
  unfold pi_test_recording.test_recording.
  erewrite bind_ok by reflexivity.
  erewrite bind_ok by reflexivity.
  rewrite try_finally_terminate.
  match goal with
  | |- context [try_except ?body ?handler ?st] =>
      assert (Hbody : exists sb, try_except body handler st = (Ok false, sb) /\
                open_calls sb = open_calls s ++ [call] /\
                reads sb = (reads s + S i)%nat /\ files sb = files s /\
                console sb = console s ++ [line1; started; "Recording test failed: " +:+ msg])
  end.
  { eexists. split.
    - erewrite try_caught; [reflexivity |].
      erewrite bind_ok
        by (unfold pa_open; cbn [open_calls set_pa set_console]; rewrite Hopen; reflexivity).
      erewrite bind_ok by reflexivity.
      erewrite bind_ok by (unfold lift; rewrite Hcount; reflexivity).
      erewrite bind_raise; [reflexivity |].
      rewrite read_all_run. cbn [reads set_console set_streams set_open_calls set_pa].
      rewrite Hfail. reflexivity.
    - cbn. rewrite <- !app_assoc. conjuncts; reflexivity. }
  destruct Hbody as (sb & Hrun & Hfacts). rewrite Hrun. cbn [fst snd].
  exists sb. split; [reflexivity | exact Hfacts].
Qed.

(** Every read succeeds. *)
Lemma test_recording_all_read n :
  open_outcome W (length (open_calls s)) = None ->
  total_chunks_of pi_test_recording.SAMPLE_RATE pi_test_recording.CHUNK_SIZE d = Ok n ->
  first_failure W (reads s) (Z.to_nat n) = None ->
  let data := concat (captured W (reads s) (Z.to_nat n)) in
  let test_filename := "test_recording_" +:+ strftime_compact (clock W (ticks s)) +:+ ".wav" in
  let wav := mkWav 1 2 44100 (Z.of_nat (length data) / 2) data in
  exists sb,
    pi_test_recording.test_recording W d s = (Ok true, snd (terminate p sb)) /\
    open_calls sb = open_calls s ++ [call] /\
    reads sb = (reads s + Z.to_nat n)%nat /\
    files sb = <[test_filename := WavFile wav]> (<[test_filename := Plain []]> (files s)) /\
    console sb = console s ++ [line1; started; "Test recording saved: " +:+ test_filename;
                               "File size: " +:+ pretty (44 + Z.of_nat (length data)) +:+
                               " bytes"].
Proof.
  intros Hopen Hcount Hall data test_filename wav.
  unfold pi_test_recording.test_recording.
  erewrite bind_ok by reflexivity.
  erewrite bind_ok by reflexivity.
  rewrite try_finally_terminate.
  match goal with
  | |- context [try_except ?body ?handler ?st] =>
      assert (Hbody : exists sb, try_except body handler st = (Ok true, sb) /\
                open_calls sb = open_calls s ++ [call] /\
                reads sb = (reads s + Z.to_nat n)%nat /\
                files sb = <[test_filename := WavFile wav]>
                             (<[test_filename := Plain []]> (files s)) /\
                console sb = console s ++ [line1; started;
                               "Test recording saved: " +:+ test_filename;
                               "File size: " +:+ pretty (44 + Z.of_nat (length data)) +:+
                               " bytes"])
  end.
  { eexists. split.
    - erewrite try_ok; [reflexivity |].
      erewrite bind_ok
        by (unfold pa_open; cbn [open_calls set_pa set_console]; rewrite Hopen; reflexivity).
      erewrite bind_ok by reflexivity.
      erewrite bind_ok by (unfold lift; rewrite Hcount; reflexivity).
      erewrite bind_ok
        by (rewrite read_all_run; cbn [reads set_console set_streams set_open_calls set_pa];
            rewrite Hall; reflexivity).
      erewrite bind_ok by reflexivity.
      erewrite bind_ok by reflexivity.
      erewrite bind_ok by reflexivity.
      erewrite bind_ok by (rewrite wave_block_run; reflexivity).
      erewrite bind_ok by reflexivity.
      erewrite bind_ok.
      2: { unfold os_path_getsize. cbn [files set_files set_console].
           rewrite lookup_insert_eq. reflexivity. }
      erewrite bind_ok by reflexivity.
      reflexivity.
    - cbn. rewrite <- !app_assoc. conjuncts; reflexivity. }
  destruct Hbody as (sb & Hrun & Hfacts). rewrite Hrun. cbn [fst snd].
  exists sb. split; [reflexivity | exact Hfacts].
Qed.

End TestRecording.

Lemma terminate_releases p sb :
  (p ∉ pa_live (snd (terminate p sb))) /\
  (forall st q, streams (snd (terminate p sb)) !! st = Some q -> q <> p).
Proof.
  cbn. split.
  - apply not_elem_of_difference. right. apply elem_of_singleton. reflexivity.
  - intros st q Hq. apply map_lookup_filter_Some in Hq as [_ Hq]. exact Hq.
Qed.

Lemma test_recording_returns W duration s :
  exists b sb,
    pi_test_recording.test_recording W duration s = (Ok b, snd (terminate (pa_next s) sb)) /\
    open_calls sb = open_calls s ++ [mkOpenCall paInt16 1 44100 true 1024 None] /\
    (b = true -> open_outcome W (length (open_calls s)) = None).
Proof.
  destruct (open_outcome W (length (open_calls s))) as [msg |] eqn:Hopen.
  { destruct (test_recording_open_fails W duration s msg Hopen) as (sb & Hrun & Hoc & _).
    exists false, sb. split; [exact Hrun |]. split; [exact Hoc | discriminate]. }
  destruct (total_chunks_of pi_test_recording.SAMPLE_RATE pi_test_recording.CHUNK_SIZE
              duration) as [n | e] eqn:Hcount.
  - destruct (first_failure W (reads s) (Z.to_nat n)) as [[i msg] |] eqn:Hff.
    + destruct (test_recording_read_fails W duration s n i msg Hopen Hcount Hff)
        as (sb & Hrun & Hoc & _).
      exists false, sb. split; [exact Hrun |]. split; [exact Hoc | reflexivity].
    + destruct (test_recording_all_read W duration s n Hopen Hcount Hff)
        as (sb & Hrun & Hoc & _).
      exists true, sb. split; [exact Hrun |]. split; [exact Hoc | reflexivity].
  - destruct (test_recording_count_fails W duration s e Hopen Hcount) as (sb & Hrun & Hoc & _).
    exists false, sb. split; [exact Hrun |]. split; [exact Hoc | reflexivity].
Qed.

(** X21.  [test_recording] never raises, and whatever happens, the stream
    refused, a read failing, the file not written, its PyAudio instance is
    terminated before it returns: the instance is no longer live and none
    of its streams is left open. *)
Theorem test_recording_always_terminates (W : World) (duration : Z) (s : State) :
  let p := pa_next s in
  let r := pi_test_recording.test_recording W duration s in
  (exists b, fst r = Ok b) /\
  (p ∉ pa_live (snd r)) /\
  (forall st q, streams (snd r) !! st = Some q -> q <> p).
Proof.
  intros p r. subst r p.
  destruct (test_recording_returns W duration s) as (b & sb & Hrun & _).
  rewrite Hrun. cbn [fst snd].
  split; [exists b; reflexivity | apply terminate_releases].
Qed.

(** X22.  In [test_recording] a read that fails ends the test: no further
    read is made, nothing is written to the disk, the error is printed and
    the function returns [False]. *)
Theorem test_recording_stops_at_first_failed_read (W : World) (duration : Z) (s : State)
    (n : Z) (i : nat) (msg : string) :
  open_outcome W (length (open_calls s)) = None ->
  total_chunks_of pi_test_recording.SAMPLE_RATE pi_test_recording.CHUNK_SIZE duration = Ok n ->
  first_failure W (reads s) (Z.to_nat n) = Some (i, msg) ->
  let r := pi_test_recording.test_recording W duration s in
  fst r = Ok false /\
  reads (snd r) = (reads s + S i)%nat /\
  files (snd r) = files s /\
  console (snd r) =
    console s ++ ["Testing recording for " +:+ pretty duration +:+ " seconds...";
                  "Recording started... (speak into microphone)";
                  "Recording test failed: " +:+ msg].
Proof.
  intros Hopen Hcount Hff r. subst r.
  destruct (test_recording_read_fails W duration s n i msg Hopen Hcount Hff)
    as (sb & Hrun & _ & Hreads & Hfiles & Hconsole).
  rewrite Hrun. cbn [fst snd]. split; [reflexivity |].
  change (reads (snd (terminate (pa_next s) sb))) with (reads sb).
  change (files (snd (terminate (pa_next s) sb))) with (files sb).
  change (console (snd (terminate (pa_next s) sb))) with (console sb).
  split; [exact Hreads |]. split; [exact Hfiles | exact Hconsole].
Qed.

(** The third read overflows: the test stops after three reads. *)
Lemma test_recording_stops_at_first_failed_read_witness :
  let W := set_read (fun i => if (i =? 2)%nat then inl "Input overflowed"
                              else inr [Byte.x01; Byte.x02]) plain_world in
  let r := pi_test_recording.test_recording W 5 boot_state in
  fst r = Ok false /\
  reads (snd r) = (reads boot_state + 3)%nat /\
  files (snd r) = files boot_state /\
  console (snd r) =
    console boot_state ++ ["Testing recording for " +:+ pretty 5 +:+ " seconds...";
                           "Recording started... (speak into microphone)";
                           "Recording test failed: " +:+ "Input overflowed"].
Proof.
  apply (test_recording_stops_at_first_failed_read
           (set_read (fun i => if (i =? 2)%nat then inl "Input overflowed"
                               else inr [Byte.x01; Byte.x02]) plain_world)
           5 boot_state 215 2 "Input overflowed"); vm_compute; reflexivity.
Defined.

(** X23.  When the stream opens and every read succeeds, [test_recording]
    returns [True] having written a container with one channel, two bytes
    per sample and 44100 frames per second that holds every chunk read, in
    order; the file is named after the time at which the capture ended, and
    the size printed is that of the data plus the 44 bytes of the header. *)
Theorem test_recording_saves_every_chunk (W : World) (duration : Z) (s : State) (n : Z) :
  open_outcome W (length (open_calls s)) = None ->
  total_chunks_of pi_test_recording.SAMPLE_RATE pi_test_recording.CHUNK_SIZE duration = Ok n ->
  first_failure W (reads s) (Z.to_nat n) = None ->
  let chunks := captured W (reads s) (Z.to_nat n) in
  let test_filename := "test_recording_" +:+ strftime_compact (clock W (ticks s)) +:+ ".wav" in
  let r := pi_test_recording.test_recording W duration s in
  fst r = Ok true /\
  length chunks = Z.to_nat n /\
  reads (snd r) = (reads s + Z.to_nat n)%nat /\
  files (snd r) !! test_filename =
    Some (WavFile (mkWav 1 2 44100 (Z.of_nat (length (concat chunks)) / 2) (concat chunks))) /\
  last (console (snd r)) =
    Some ("File size: " +:+ pretty (44 + Z.of_nat (length (concat chunks))) +:+ " bytes").
Proof.
  intros Hopen Hcount Hff chunks test_filename r. subst r.
  destruct (test_recording_all_read W duration s n Hopen Hcount Hff)
    as (sb & Hrun & _ & Hreads & Hfiles & Hconsole).
  rewrite Hrun. cbn [fst snd]. split; [reflexivity |].
  change (reads (snd (terminate (pa_next s) sb))) with (reads sb).
  change (files (snd (terminate (pa_next s) sb))) with (files sb).
  change (console (snd (terminate (pa_next s) sb))) with (console sb).
  split; [apply (first_failure_none_captured W _ _ Hff) |].
  split; [exact Hreads |].
  split; [rewrite Hfiles; apply lookup_insert_eq |].
  rewrite Hconsole.
  change [?a; ?b; ?c; ?e] with ([a; b; c] ++ [e]).
  rewrite app_assoc. apply last_snoc.
Qed.

(** The test as the script runs it: five seconds, 215 chunks. *)
Lemma test_recording_saves_every_chunk_witness :
  let chunks := captured plain_world (reads boot_state) (Z.to_nat 215) in
  let test_filename :=
    "test_recording_" +:+ strftime_compact (clock plain_world (ticks boot_state)) +:+ ".wav" in
  let r := pi_test_recording.test_recording plain_world pi_test_recording.TEST_DURATION
             boot_state in
  fst r = Ok true /\
  length chunks = Z.to_nat 215 /\
  reads (snd r) = (reads boot_state + Z.to_nat 215)%nat /\
  files (snd r) !! test_filename =
    Some (WavFile (mkWav 1 2 44100 (Z.of_nat (length (concat chunks)) / 2) (concat chunks))) /\
  last (console (snd r)) =
    Some ("File size: " +:+ pretty (44 + Z.of_nat (length (concat chunks))) +:+ " bytes").
Proof.
  apply (test_recording_saves_every_chunk plain_world pi_test_recording.TEST_DURATION
           boot_state 215); vm_compute; reflexivity.
Defined.

(** ** The device listing and the test's [main] *)

Lemma in_range i n : In i (pi_test_recording.range n) <-> 0 <= i < n.
Proof.
  unfold pi_test_recording.range. rewrite in_map_iff. split.
  - intros (k & <- & Hk). apply in_seq in Hk. lia.
  - intros Hi. exists (Z.to_nat i). split; [lia | apply in_seq; lia].
Qed.

Lemma all_devices_read T n :
  Forall (fun i => exists e, device_entry T i = inr e) (pi_test_recording.range n) ->
  forall i, 0 <= i < n -> exists e, device_entry T i = inr e.
Proof.
  intros Hall i Hi. apply in_range in Hi.
  exact (proj1 (List.Forall_forall _ _) Hall i Hi).
Qed.

Lemma set_console_same s : set_console (console s) s = s.
Proof. destruct s; reflexivity. Qed.

(** The loop of the listing: it goes through, or it stops at the first
    device whose information cannot be read. *)
Lemma list_devices_run T indices s :
  (Forall (fun i => exists e, device_entry T i = inr e) indices /\
   pi_test_recording.list_devices T indices s =
   (Ok tt, set_console (console s ++ flat_map (device_lines T) indices) s)) \/
  (exists i msg printed,
     In i indices /\ device_entry T i = inl msg /\
     pi_test_recording.list_devices T indices s =
     (Raise (PyExc OSError msg), set_console (console s ++ printed) s)).
Proof.
  revert s. induction indices as [| i rest IH]; intros s.
  - left. split; [constructor |]. cbn. rewrite app_nil_r, set_console_same. reflexivity.
  - cbn [pi_test_recording.list_devices flat_map]. unfold device_lines at 1.
    destruct (device_entry T i) as [msg | e] eqn:He.
    + right. exists i, msg, []. split; [left; reflexivity |]. split; [exact He |].
      rewrite app_nil_r, set_console_same. reflexivity.
    + erewrite bind_ok by reflexivity.
      set (lines := if 0 <? de_maxInputChannels e
                    then ["Device " +:+ pretty i +:+ ": " +:+ de_name e;
                          "  - Max input channels: " +:+ pretty (de_maxInputChannels e);
                          "  - Default sample rate: " +:+ de_defaultSampleRate e]
                    else []).
      assert (Hstep :
        (if 0 <? de_maxInputChannels e
         then
           let* _ := print ("Device " +:+ pretty i +:+ ": " +:+ de_name e) in
           let* _ := print ("  - Max input channels: " +:+ pretty (de_maxInputChannels e)) in
           print ("  - Default sample rate: " +:+ de_defaultSampleRate e)
         else ret tt) s = (Ok tt, set_console (console s ++ lines) s)).
      { subst lines. destruct (0 <? de_maxInputChannels e).
        - unfold bind, print. cbn [console set_console].
          rewrite <- !app_assoc. reflexivity.
        - cbn. rewrite app_nil_r, set_console_same. reflexivity. }
      erewrite bind_ok by exact Hstep.
      destruct (IH (set_console (console s ++ lines) s))
        as [(Hall & Hrun) | (j & msg & printed & Hj & Hmsg & Hrun)].
      * left. split; [constructor; [exists e; exact He | exact Hall] |].
        rewrite Hrun. cbn [console set_console]. rewrite <- app_assoc. reflexivity.
      * right. exists j, msg, (lines ++ printed).
        split; [right; exact Hj |]. split; [exact Hmsg |].
        rewrite Hrun. cbn [console set_console]. rewrite <- app_assoc. reflexivity.
Qed.

Lemma test_audio_devices_run T s :
  (Forall (fun i => exists e, device_entry T i = inr e)
     (pi_test_recording.range (device_count T)) /\
   exists sa,
     pi_test_recording.test_audio_devices T s = (Ok tt, sa) /\
     open_calls sa = open_calls s /\
     pa_live sa = ({[pa_next s]} ∪ pa_live s) ∖ {[pa_next s]} /\
     console sa = console s ++ "Available audio input devices:" ::
                  flat_map (device_lines T) (pi_test_recording.range (device_count T))) \/
  (exists i msg sa,
     In i (pi_test_recording.range (device_count T)) /\ device_entry T i = inl msg /\
     pi_test_recording.test_audio_devices T s = (Raise (PyExc OSError msg), sa) /\
     open_calls sa = open_calls s /\
     pa_live sa = {[pa_next s]} ∪ pa_live s).
Proof.
  unfold pi_test_recording.test_audio_devices.
  erewrite bind_ok by reflexivity.
  erewrite bind_ok by reflexivity.
  match goal with
  | |- context [bind (pi_test_recording.list_devices T ?indices) _ ?st] =>
      destruct (list_devices_run T indices st)
        as [(Hall & Hrun) | (i & msg & printed & Hi & Hmsg & Hrun)]
  end.
  - left. split; [exact Hall |].
    erewrite bind_ok by exact Hrun.
    eexists. split; [reflexivity |]. cbn. rewrite <- app_assoc. conjuncts; reflexivity.
  - right. exists i, msg. eexists. split; [exact Hi |]. split; [exact Hmsg |].
    erewrite bind_raise by exact Hrun.
    split; [reflexivity |]. cbn. conjuncts; reflexivity.
Qed.

(** X24.  [test_audio_devices] has no handler and no [finally]: when it
    returns, every device could be read, the lines printed are those of the
    devices with at least one input channel, in the order of their indices,
    and the PyAudio instance is terminated; when it raises, it is the error
    of a device that could not be read, and the instance is still live. *)
Theorem device_listing_releases_only_on_success (T : DeviceTable) (s : State) :
  let p := pa_next s in
  let r := pi_test_recording.test_audio_devices T s in
  match fst r with
  | Ok _ =>
      (forall i, 0 <= i < device_count T -> exists e, device_entry T i = inr e) /\
      (p ∉ pa_live (snd r)) /\
      console (snd r) =
        console s ++ "Available audio input devices:" ::
        flat_map (device_lines T) (pi_test_recording.range (device_count T))
  | Raise e =>
      (exists i msg, 0 <= i < device_count T /\ device_entry T i = inl msg /\
                     e = PyExc OSError msg) /\
      (p ∈ pa_live (snd r))
  end.
Proof.
  intros p r. subst r p.
  destruct (test_audio_devices_run T s)
    as [(Hall & sa & Hrun & _ & Hpa & Hcon) | (i & msg & sa & Hi & Hmsg & Hrun & _ & Hpa)];
    rewrite Hrun; cbn [fst snd].
  - split.
    + apply all_devices_read, Hall.
    + split; [| exact Hcon]. rewrite Hpa.
      apply not_elem_of_difference. right. apply elem_of_singleton. reflexivity.
  - split.
    + exists i, msg. split; [apply in_range, Hi |]. split; [exact Hmsg | reflexivity].
    + rewrite Hpa. apply elem_of_union_l, elem_of_singleton. reflexivity.
Qed.

(** X25.  The status the test script exits with is 0 or 1.  It is 0 only
    when every device could be read and the stream of the recording test
    opened, and then [PyAudio.open] was called exactly once.  When a device
    cannot be read the script dies of that error before the recording test:
    no stream is opened.  When the devices can be read and the stream cannot
    be opened, the script ends with [sys.exit(1)]. *)
Theorem test_main_exit_status (W : World) (T : DeviceTable) (s : State) :
  let r := pi_test_recording.main W T s in
  let call := mkOpenCall paInt16 1 44100 true 1024 None in
  (exit_status (fst r) = 0 \/ exit_status (fst r) = 1) /\
  (exit_status (fst r) = 0 ->
     (forall i, 0 <= i < device_count T -> exists e, device_entry T i = inr e) /\
     open_outcome W (length (open_calls s)) = None /\
     open_calls (snd r) = open_calls s ++ [call]) /\
  (forall i msg, 0 <= i < device_count T -> device_entry T i = inl msg ->
     (exists m, fst r = Raise (PyExc OSError m)) /\ open_calls (snd r) = open_calls s) /\
  ((forall i, 0 <= i < device_count T -> exists e, device_entry T i = inr e) ->
   forall msg, open_outcome W (length (open_calls s)) = Some msg ->
     fst r = Raise (SystemExit 1)).
Proof.
  intros r call. subst r. unfold pi_test_recording.main.
  erewrite bind_ok by reflexivity.
  erewrite bind_ok by reflexivity.
  erewrite bind_ok by reflexivity.
  match goal with
  | |- context [bind (pi_test_recording.test_audio_devices T) _ ?st] =>
      destruct (test_audio_devices_run T st)
        as [(Hall & sa & Hrun & Hoc & _) | (i & msg & sa & Hi & Hmsg & Hrun & Hoc & _)]
  end; cbn [open_calls set_console] in Hoc.
  - erewrite bind_ok by exact Hrun.
    erewrite bind_ok by reflexivity.
    match goal with
    | |- context [bind (pi_test_recording.test_recording W ?dur) _ ?st] =>
        destruct (test_recording_returns W dur st) as (b & sb & Hrec & Hoc2 & Hb)
    end.
    cbn [open_calls set_console] in Hoc2, Hb. rewrite Hoc in Hoc2, Hb.
    erewrite bind_ok by exact Hrec.
    assert (Hdev : forall i, 0 <= i < device_count T -> exists e, device_entry T i = inr e).
    { apply all_devices_read, Hall. }
    destruct b.
    + erewrite bind_ok by reflexivity.
      erewrite bind_ok by reflexivity.
      cbn [fst snd exit_status print].
      split; [left; reflexivity |].
      split.
      { intros _. split; [exact Hdev |]. split; [apply Hb; reflexivity |].
        cbn. exact Hoc2. }
      split.
      { intros i msg Hi Hmsg. destruct (Hdev i Hi) as (e & He). congruence. }
      intros _ msg Hopen. rewrite (Hb eq_refl) in Hopen. discriminate Hopen.
    + erewrite bind_raise.
      2: { erewrite bind_ok by reflexivity. reflexivity. }
      cbn [fst snd exit_status].
      split; [right; reflexivity |].
      split; [discriminate |].
      split.
      { intros i msg Hi Hmsg. destruct (Hdev i Hi) as (e & He). congruence. }
      intros _ msg _. reflexivity.
  - erewrite bind_raise by exact Hrun.
    cbn [fst snd exit_status].
    split; [right; reflexivity |].
    split; [discriminate |].
    split.
    { intros _ _ _ _. split; [exists msg; reflexivity | exact Hoc]. }
    intros Hdev. apply in_range in Hi. destruct (Hdev i Hi) as (e & He). congruence.
Qed.

(** A Pi with an output device and a microphone: the listing shows the
    microphone only, the recording test passes and the script returns. *)
Lemma test_main_on_a_working_pi :
  let T := mkDeviceTable 2
             (fun i => if i =? 0 then inr (mkDeviceEntry "bcm2835 Headphones" 0 "44100.0")
                       else inr (mkDeviceEntry "USB PnP Sound Device" 1 "48000.0")) in
  let r := pi_test_recording.main plain_world T boot_state in
  fst r = Ok tt /\
  exit_status (fst r) = 0 /\
  firstn 7 (console (snd r)) =
    ["Raspberry Pi Audio Recording Test";
     "========================================";
     nl +:+ "1. Testing audio devices...";
     "Available audio input devices:";
     "Device 1: USB PnP Sound Device";
     "  - Max input channels: 1";
     "  - Default sample rate: 48000.0"] /\
  last (console (snd r)) = Some "The Pi is ready for audio recording." /\
  elements (pa_live (snd r)) = [].
Proof. cbv zeta. conjuncts; vm_compute; reflexivity. Qed.
